(** * CrowdFunding: the ledger synchronisation and aggregation layer

    A shallow embedding of the Express handlers of [server/index.js], of the
    controllers of [controllers/campaignController.js] and of
    [utils/blockchain.js], followed by the properties of the specification
    that are stated about them.

    Every [await] on an external collaborator (the ethers contract, the
    mongoose model, [Math.random]) is a visible call of a small free monad;
    a handler is a program of that monad, and an environment answers the
    calls.  Theorems quantified over the environment hold for every
    behaviour of the ledger node and of the cache store. *)

From Stdlib Require Import ZArith QArith Qround List String Bool Lia.
From Stdlib Require Import DecimalString Sorted.
From ExtLib Require Import Structures.Monad Structures.MonadExc.
Import ListNotations.
Import MonadNotation.
Local Open Scope monad_scope.
Local Open Scope string_scope.
Local Open Scope list_scope.
Local Open Scope Z_scope.

Set Implicit Arguments.

(* ===================================================================== *)
(** ** JavaScript values                                                  *)
(* ===================================================================== *)

Module Js.

(** A JavaScript Number: a finite value (every finite double is a
    rational) or NaN. *)
Inductive number : Type :=
| NaN
| Num (q : Q).

(** The scalar values a JSON request body field can hold; [JUndefined]
    is a field that is absent. *)
Inductive value : Type :=
| JUndefined
| JNull
| JBool (b : bool)
| JNum (n : number)
| JStr (s : string).

(** A thrown JavaScript error, with the properties the handlers read. *)
Record Error : Type := mkError {
  err_name : string;
  err_reason : option string;
  err_shortMessage : option string;
  err_message : option string;
  err_code : option string
}.

Definition error (nm msg : string) : Error :=
  mkError nm None None (Some msg) None.

(** Outcome of an expression that may throw. *)
Inductive result (A : Type) : Type :=
| Ok (a : A)
| Err (e : Error).
Arguments Ok {A} a.
Arguments Err {A} e.

Definition is_ok {A} (r : result A) : bool :=
  match r with Ok _ => true | Err _ => false end.

Definition of_int (z : Z) : number := Num (inject_Z z).

Definition isNaN (n : number) : bool :=
  match n with NaN => true | Num _ => false end.

(** [a < b], [a >= b] on Numbers: every comparison with NaN is false. *)
Definition lt (a b : number) : bool :=
  match a, b with
  | Num x, Num y => negb (Qle_bool y x)
  | _, _ => false
  end.

Definition ge (a b : number) : bool :=
  match a, b with
  | Num x, Num y => Qle_bool y x
  | _, _ => false
  end.

(** [a - b]. *)
Definition sub (a b : number) : number :=
  match a, b with
  | Num x, Num y => Num (x - y)
  | _, _ => NaN
  end.

(** [Math.floor]. *)
Definition floor (n : number) : number :=
  match n with
  | Num x => of_int (Qfloor x)
  | NaN => NaN
  end.

(** The quotient [a / b], for [0 < b], rounded to the nearest integer,
    ties to the even one. *)
Definition round_half_even (a b : Z) : Z :=
  let fl := a / b in
  match 2 * (a mod b) ?= b with
  | Lt => fl
  | Gt => fl + 1
  | Eq => if Z.even fl then fl else fl + 1
  end.

(** [n / d] divided by [2 ^ e], as a fraction. *)
Definition scaled (n d e : Z) : Z * Z :=
  if 0 <=? e then (n, d * 2 ^ e) else (n * 2 ^ (- e), d).

(** The double nearest to the positive rational [n / d]: a significand
    of 53 bits above [2 ^ -1022], a multiple of [2 ^ -1074] below it. *)
Definition round_positive (n d : positive) : Q :=
  let e0 := Z.log2 (Zpos n) - Z.log2 (Zpos d) - 52 in
  let e := Z.max (if fst (scaled (Zpos n) (Zpos d) e0) / snd (scaled (Zpos n) (Zpos d) e0)
                     <? 2 ^ 52
                  then e0 - 1 else e0)
                 (-1074) in
  let m := round_half_even (fst (scaled (Zpos n) (Zpos d) e))
                           (snd (scaled (Zpos n) (Zpos d) e)) in
  if 0 <=? e then inject_Z (m * 2 ^ e) else Qmake m (Z.to_pos (2 ^ (- e))).

(** The result of an arithmetic operation is its exact value rounded to
    the nearest double, ties to even. *)
Definition round_double (q : Q) : Q :=
  match Qnum q with
  | Z0 => 0%Q
  | Zpos n => round_positive n (Qden q)
  | Zneg n => Qopp (round_positive n (Qden q))
  end.

(** [a * b] on finite operands whose product is within the range of the
    doubles (the only product of the handlers has a factor below 1 and
    the factor 1000000). *)
Definition mul (a b : number) : number :=
  match a, b with
  | Num x, Num y => Num (round_double (x * y))
  | _, _ => NaN
  end.

(** Truthiness of a string: only the empty string is falsy. *)
Definition truthy_string (s : string) : bool :=
  match s with EmptyString => false | _ => true end.

(** Truthiness of a value: [undefined], [null], [false], [NaN], [0] and
    the empty string are falsy. *)
Definition truthy (v : value) : bool :=
  match v with
  | JUndefined | JNull => false
  | JBool b => b
  | JNum NaN => false
  | JNum (Num q) => negb (Qeq_bool q 0)
  | JStr s => truthy_string s
  end.

(** [a ?? b]: [b] exactly when [a] is [undefined] or [null]. *)
Definition nullish (a b : value) : value :=
  match a with
  | JUndefined | JNull => b
  | _ => a
  end.

(** [a || b] where an absent property reads [undefined]. *)
Definition or_else (a : option string) (b : option string) : option string :=
  match a with
  | Some s => if truthy_string s then Some s else b
  | None => b
  end.

(** [bigint.toString()]: the decimal numeral. *)
Definition bigint_toString (z : Z) : string :=
  NilZero.string_of_int (Z.to_int z).

(** [Error.prototype.toString], used when an error is concatenated to a
    string. *)
Definition Error_toString (e : Error) : string :=
  let msg := match err_message e with Some m => m | None => "" end in
  if negb (truthy_string (err_name e)) then msg
  else if negb (truthy_string msg) then err_name e
  else (err_name e ++ ": " ++ msg)%string.

(** The string functions of the JavaScript runtime and of the ethers
    library that the handlers call.  They are outside the repository, so
    the handlers are embedded over an arbitrary implementation of them. *)
Class Lib : Type := {
  (** [BigInt(s)] on a string; [None] when it throws a SyntaxError. *)
  StringToBigInt : string -> option Z;
  (** [Number(s)] on a string. *)
  StringToNumber : string -> number;
  (** [n.toString()] on a finite Number. *)
  NumberToString : Q -> string;
  (** [parseFloat(s)]. *)
  parseFloat : string -> number;
  (** [ethers.parseEther(s)]; it throws on a malformed amount. *)
  parseEther : string -> result Z;
  (** [ethers.formatEther(wei)] on a bigint. *)
  formatEther : Z -> string
}.

Section Coercions.
Context {lib : Lib}.

(** [String(v)], the conversion [parseFloat] applies to its argument. *)
Definition ToString (v : value) : string :=
  match v with
  | JUndefined => "undefined"
  | JNull => "null"
  | JBool true => "true"
  | JBool false => "false"
  | JNum NaN => "NaN"
  | JNum (Num q) => NumberToString q
  | JStr s => s
  end.

(** [v.toString()]: a TypeError on [undefined] and [null]. *)
Definition toString (v : value) : result string :=
  match v with
  | JUndefined | JNull =>
      Err (error "TypeError" "Cannot read properties of undefined")
  | _ => Ok (ToString v)
  end.

(** [Number(v)]. *)
Definition Number (v : value) : number :=
  match v with
  | JUndefined => NaN
  | JNull => of_int 0
  | JBool true => of_int 1
  | JBool false => of_int 0
  | JNum n => n
  | JStr s => StringToNumber s
  end.

(** [BigInt(n)] on a Number: a RangeError unless [n] is an integer. *)
Definition BigInt_of_number (n : number) : result Z :=
  match n with
  | NaN => Err (error "RangeError" "The number NaN cannot be converted to a BigInt")
  | Num q =>
      if Qeq_bool q (inject_Z (Qfloor q)) then Ok (Qfloor q)
      else Err (error "RangeError" "The number is not an integer")
  end.

(** [BigInt(s)] on a string. *)
Definition BigInt_of_string (s : string) : result Z :=
  match StringToBigInt s with
  | Some z => Ok z
  | None => Err (error "SyntaxError" "Cannot convert to a BigInt")
  end.

(** [BigInt(v)]. *)
Definition BigInt (v : value) : result Z :=
  match v with
  | JUndefined | JNull => Err (error "TypeError" "Cannot convert to a BigInt")
  | JBool true => Ok 1
  | JBool false => Ok 0
  | JNum n => BigInt_of_number n
  | JStr s => BigInt_of_string s
  end.

(** [ethers.formatEther(s)] on a decimal string: ethers converts the
    string to a bigint first and throws when it is not one. *)
Definition formatEther_string (s : string) : result string :=
  match StringToBigInt s with
  | Some z => Ok (formatEther z)
  | None => Err (error "TypeError" "invalid BigNumberish string")
  end.

End Coercions.

End Js.

Import Js.

(* ===================================================================== *)
(** ** Data model                                                         *)
(* ===================================================================== *)

(** The tuple [contract.getCampaign(id)] resolves to. *)
Record CampaignTuple : Type := mkCampaign {
  creator : string;
  title : string;
  description : string;
  goal : Z;
  deadline : Z;
  amountCollected : Z
}.

(** A submitted transaction ([tx.hash]). *)
Record Tx : Type := mkTx { hash : string }.

(** What [iface.parseLog(log)] describes: the event name and its
    [args.campaignId] ([None] when the event has no such argument). *)
Record LogDescription : Type := mkLogDescription {
  name : string;
  args_campaignId : option Z
}.

(** A receipt log, represented by what [iface.parseLog] makes of it. *)
Inductive Log : Type :=
| Unparsable (e : Error)
| NoFragment
| Described (d : LogDescription).

(** [iface.parseLog(log)]: throws, or is [null], or a description. *)
Definition parseLog (log : Log) : result (option LogDescription) :=
  match log with
  | Unparsable e => Err e
  | NoFragment => Ok None
  | Described d => Ok (Some d)
  end.

(** The receipt [tx.wait()] resolves to. *)
Record Receipt : Type := mkReceipt {
  logs : list Log;
  blockNumber : Z
}.

(** The document handed to [Campaign.create]; a field that the caller
    leaves out is [None]. *)
Record CampaignDoc : Type := mkDoc {
  doc_title : value;
  doc_description : value;
  targetEth : number;
  raisedEth : option number;
  doc_creator : string;
  txHash : string;
  campaignId : number
}.

(** The global [contract] of the server: [null] until the start-up checks
    pass. *)
Variant Contract : Type := EthersContract.

(* ===================================================================== *)
(** ** External calls and programs                                        *)
(* ===================================================================== *)

(** The awaited calls on external collaborators. *)
Inductive Call : Type :=
| campaignCount
| getCampaign (id : Z)
| createCampaign (title description : value) (goalWei duration : Z)
| fund (campaignId value : Z)
| wait (tx : Tx)
| Math_random
| mongoose_readyState
| import_Campaign
| Campaign_create (doc : CampaignDoc)
| Campaign_findOneAndUpdate (campaignId raisedEth : number).

(** What each call resolves to when it does not throw. *)
Definition Resp (c : Call) : Type :=
  match c with
  | campaignCount => Z
  | getCampaign _ => CampaignTuple
  | createCampaign _ _ _ _ => Tx
  | fund _ _ => Tx
  | wait _ => Receipt
  | Math_random => Q
  | mongoose_readyState => Z
  | import_Campaign => unit
  | Campaign_create _ => unit
  | Campaign_findOneAndUpdate _ _ => option CampaignDoc
  end.

(** The calls that read the ledger. *)
Definition is_ledger_read (c : Call) : bool :=
  match c with
  | campaignCount | getCampaign _ => true
  | _ => false
  end.

(** A program: it returns, throws, or awaits a call and continues with
    the outcome of that call. *)
Inductive Prog (A : Type) : Type :=
| Ret (a : A)
| Throw (e : Error)
| Vis (c : Call) (k : result (Resp c) -> Prog A).
Arguments Ret {A} a.
Arguments Throw {A} e.
Arguments Vis {A} c k.

Fixpoint bind {A B} (p : Prog A) (f : A -> Prog B) : Prog B :=
  match p with
  | Ret a => f a
  | Throw e => Throw e
  | Vis c k => Vis c (fun r => bind (k r) f)
  end.

(** [try { p } catch (e) { h e }]. *)
Fixpoint try_catch {A} (p : Prog A) (h : Error -> Prog A) : Prog A :=
  match p with
  | Ret a => Ret a
  | Throw e => h e
  | Vis c k => Vis c (fun r => try_catch (k r) h)
  end.

#[export] Instance Monad_Prog : Monad Prog :=
  {| ret := fun _ a => Ret a; Monad.bind := fun _ _ p f => bind p f |}.

#[export] Instance MonadExc_Prog : MonadExc Error Prog :=
  {| raise := fun _ e => Throw e; catch := fun _ p h => try_catch p h |}.

(** [await c]: the value of the call, or its error thrown. *)
Definition await (c : Call) : Prog (Resp c) :=
  Vis c (fun r => match r with Ok x => Ret x | Err e => Throw e end).

(** A pure expression that may throw. *)
Definition lift {A} (r : result A) : Prog A :=
  match r with Ok a => Ret a | Err e => Throw e end.

(** [try { p } catch {}] with the outcome kept as a value. *)
Definition attempt {A} (p : Prog A) : Prog (result A) :=
  catch (a <- p ;; ret (Ok a)) (fun e => ret (Err e)).

(* ===================================================================== *)
(** ** Running a program against an environment                           *)
(* ===================================================================== *)

(** One awaited call, and whether it resolved. *)
Record Event : Type := mkEvent { ev_call : Call; ev_ok : bool }.

(** The result of a run: the outcome, the final state of the environment
    and the calls made, in order. *)
Record Run (St A : Type) : Type := mkRun {
  outcome : result A;
  final : St;
  trace : list Event
}.

Section Running.
Context {St : Type}.
Variable respond : forall c : Call, St -> result (Resp c) * St.

Fixpoint run {A} (p : Prog A) (s : St) : Run St A :=
  match p with
  | Ret a => mkRun (Ok a) s []
  | Throw e => mkRun (Err e) s []
  | Vis c k =>
      let r := respond c s in
      let rest := run (k (fst r)) (snd r) in
      mkRun (outcome rest) (final rest)
            (mkEvent c (is_ok (fst r)) :: trace rest)
  end.

(** The calls of a run, without their outcomes. *)
Definition calls {A} (p : Prog A) (s : St) : list Call :=
  map ev_call (trace (run p s)).

End Running.

(* ===================================================================== *)
(** ** Requests and responses                                             *)
(* ===================================================================== *)

(** [req.body] of [POST /createCampaign]. *)
Record CreateBody : Type := mkCreateBody {
  body_title : value;
  body_description : value;
  body_goal : value;
  durationInDays : value
}.

(** [req.body] of [POST /donate]. *)
Record DonateBody : Type := mkDonateBody {
  body_id : value;
  amount : value
}.

(** An entry of the array [GET /campaigns] answers with. *)
Record ListedCampaign : Type := mkListed {
  lc_id : Z;
  lc_owner : string;
  lc_title : string;
  lc_description : string;
  lc_goal : string;
  lc_deadline : string;
  lc_raised : string
}.

(** An entry of the array [fetchAllCampaigns] resolves to. *)
Record RawCampaign : Type := mkRaw {
  rc_id : Z;
  rc_creator : string;
  rc_title : string;
  rc_description : string;
  rc_goal : string;
  rc_amountCollected : string;
  rc_deadline : option string
}.

(** The object [GET /campaign/:id] answers with. *)
Record CampaignDetails : Type := mkDetails {
  cd_id : number;
  cd_creator : string;
  cd_title : string;
  cd_description : string;
  cd_goalEth : string;
  cd_amountCollectedEth : string;
  cd_deadline : string
}.

(** The JSON bodies the handlers send. *)
Inductive Body : Type :=
| Campaigns (l : list ListedCampaign)
| Formatted (l : list RawCampaign)
| Details (d : CampaignDetails)
| Failure (success : option bool) (error : option string) (details : option string)
| Created (message txHash : string) (blockNumber : option Z) (campaignId : number)
| Donated (message txHash : string)
| Synced (raisedEth : number) (warning : option string).

Record Response : Type := mkResponse { status : Z; body : Body }.

(** [res.json(b)] and [res.status(c).json(b)]. *)
Definition json (b : Body) : Response := mkResponse 200 b.
Definition status_json (c : Z) (b : Body) : Response := mkResponse c b.

(** [a || b || c || d] on the optional texts of an error, the last one a
    non-empty literal. *)
Definition or_default (a : option string) (d : string) : string :=
  match or_else a (Some d) with Some s => s | None => d end.

(** [s || d] on strings. *)
Definition string_or (s d : string) : string :=
  if truthy_string s then s else d.

(** [for (let i = from; i <= total; i++) acc = body(i, acc)], with the
    number of iterations left as the structural argument. *)
Fixpoint for_to {S : Type} (fuel : nat) (i total : Z)
    (body : Z -> S -> Prog S) (acc : S) : Prog S :=
  match fuel with
  | O => ret acc
  | S fuel' =>
      if i <=? total then
        acc' <- body i acc ;;
        for_to fuel' (i + 1) total body acc'
      else ret acc
  end.

(* ===================================================================== *)
(** ** utils/blockchain.js                                                *)
(* ===================================================================== *)

Module Blockchain.

(** The body of the loop of [fetchAllCampaigns]: the [try] pushes an
    entry, the empty [catch] skips the identifier. *)
Definition fetch_step (i : Z) (out : list RawCampaign) : Prog (list RawCampaign) :=
  r <- attempt (await (getCampaign i)) ;;
  match r with
  | Ok result =>
      ret (out ++ [mkRaw i (creator result) (title result) (description result)
                     (bigint_toString (goal result))
                     (bigint_toString (amountCollected result))
                     (if deadline result =? 0 then None
                      else Some (bigint_toString (deadline result)))])
  | Err _ => ret out
  end.

(** [fetchAllCampaigns(contract)]; [count = Number(countBn)] is the
    integer [countBn]. *)
Definition fetchAllCampaigns (contract : option Contract) : Prog (list RawCampaign) :=
  match contract with
  | None => raise (error "Error" "Contract not provided")
  | Some _ =>
      countBn <- await campaignCount ;;
      let count := countBn in
      out <- for_to (Z.to_nat count) 1 count fetch_step [] ;;
      ret (map (fun c => mkRaw (rc_id c) (rc_creator c) (rc_title c)
                               (rc_description c) (rc_goal c)
                               (rc_amountCollected c) (rc_deadline c)) out)
  end.

End Blockchain.

(* ===================================================================== *)
(** ** controllers/campaignController.js                                  *)
(* ===================================================================== *)

Module Controller.
Section WithLib.
Context {lib : Lib}.

(** [createCampaignOnBlockchain(req, res)], with [req.app.locals.contract],
    [req.body] and [req.user]. *)
Definition createCampaignOnBlockchain
    (contract : option Contract) (req_body : CreateBody) (req_user : string)
    : Prog Response :=
  match contract with
  | None =>
      ret (status_json 503 (Failure (Some false) (Some "Blockchain not configured") None))
  | Some _ =>
      catch
        (let title := body_title req_body in
         let description := body_description req_body in
         let goal := body_goal req_body in
         if negb (truthy title) || negb (truthy description)
            || match goal with JUndefined => true | _ => false end
         then ret (status_json 400
                     (Failure (Some false) (Some "title, description and goal required") None))
         else
           goal_s <- lift (toString goal) ;;
           goalWei <- lift (parseEther goal_s) ;;
           duration <- lift (BigInt (nullish (durationInDays req_body) (JNum (of_int 30)))) ;;
           tx <- await (createCampaign title description goalWei duration) ;;
           _ <- await (wait tx) ;;
           (* read count and set campaignId *)
           campaignCount <- await campaignCount ;;
           let campaignId := sub (of_int campaignCount) (of_int 1) in
           (* store metadata in MongoDB optionally *)
           _ <- catch
                  (await (Campaign_create
                            (mkDoc title description (parseFloat (ToString goal)) None
                                   req_user (hash tx) campaignId)))
                  (fun dbErr => ret tt) ;;
           ret (json (Created "Campaign created" (hash tx) None campaignId)))
        (fun err =>
           ret (status_json 500
                  (Failure (Some false)
                     (Some (or_default (or_else (err_shortMessage err) (err_message err))
                                       "Create failed"))
                     None)))
  end.

(** [getCampaignFromBlockchain(req, res)]; [params_id] is
    [req.params.id]. *)
Definition getCampaignFromBlockchain
    (contract : option Contract) (params_id : string) : Prog Response :=
  match contract with
  | None => ret (status_json 503 (Failure None (Some "Blockchain not configured") None))
  | Some _ =>
      catch
        (let id := StringToNumber params_id in
         totalBn <- await campaignCount ;;
         let total := of_int totalBn in
         if isNaN id || lt id (of_int 0) || ge id total
         then ret (status_json 404 (Failure None (Some "Not found") None))
         else
           id_bn <- lift (BigInt_of_number id) ;;
           result <- await (getCampaign id_bn) ;;
           ret (json (Details
                        (mkDetails id (creator result) (title result) (description result)
                                   (formatEther (goal result))
                                   (formatEther (amountCollected result))
                                   (bigint_toString (deadline result))))))
        (fun err =>
           ret (status_json 500
                  (Failure None
                     (Some ("Could not fetch campaign: "
                            ++ or_default (err_message err) (Error_toString err))%string)
                     None)))
  end.

(** The callback of [raw.map] in [getAllBlockchainCampaigns]. *)
Definition format_raw (c : RawCampaign) : RawCampaign :=
  let goal := string_or (rc_goal c) "0" in
  let collected := string_or (rc_amountCollected c) "0" in
  let '(goalEth, amountCollectedEth) :=
    match formatEther_string goal with
    | Ok g =>
        match formatEther_string collected with
        | Ok a => (g, a)
        | Err _ => (g, collected)
        end
    | Err _ => (goal, collected)
    end in
  mkRaw (rc_id c) (rc_creator c) (rc_title c) (rc_description c)
        goalEth amountCollectedEth (rc_deadline c).

(** [getAllBlockchainCampaigns(req, res)]. *)
Definition getAllBlockchainCampaigns (contract : option Contract) : Prog Response :=
  match contract with
  | None => ret (status_json 503 (Failure None (Some "Blockchain not configured") None))
  | Some _ =>
      catch
        (raw <- Blockchain.fetchAllCampaigns contract ;;
         let formatted := map format_raw raw in
         ret (json (Formatted formatted)))
        (fun err =>
           ret (status_json 500
                  (Failure None
                     (Some ("Could not fetch campaigns: "
                            ++ or_default (err_message err) (Error_toString err))%string)
                     None)))
  end.

End WithLib.
End Controller.

(* ===================================================================== *)
(** ** server/index.js                                                    *)
(* ===================================================================== *)

Module Index.
Section WithLib.
Context {lib : Lib}.

(** The body of the loop of [GET /campaigns]. *)
Definition campaigns_step (i : Z) (campaigns : list ListedCampaign)
    : Prog (list ListedCampaign) :=
  r <- attempt (await (getCampaign i)) ;;
  match r with
  | Ok result =>
      ret (campaigns ++
           [mkListed i (creator result)
                     (string_or (title result) "Untitled Campaign")
                     (string_or (description result) "No description")
                     (formatEther (goal result))
                     (if deadline result =? 0 then "0"
                      else bigint_toString (deadline result))
                     (formatEther (amountCollected result))])
  | Err _ =>
      (* Skip if campaign doesn't exist - continue to next *)
      ret campaigns
  end.

(** [app.get("/campaigns")].  [Number(totalBn)] of a bigint is that
    integer (exactly so below 2^53) and is never NaN, so [total] stays an
    integer and the [isNaN(total)] disjunct of the guard is false. *)
Definition get_campaigns (contract : option Contract) : Prog Response :=
  match contract with
  | None => ret (json (Campaigns []))
  | Some _ =>
      catch
        (r <- attempt (await campaignCount) ;;
         match r with
         | Err countErr => ret (json (Campaigns []))
         | Ok totalBn =>
             let total := totalBn in
             if (total <? 0) || (total =? 0) then ret (json (Campaigns []))
             else
               campaigns <- for_to (Z.to_nat total) 1 total campaigns_step [] ;;
               ret (json (Campaigns campaigns))
         end)
        (fun err => ret (json (Campaigns [])))
  end.

(** The scan of [receipt.logs] for a [CampaignCreated] event: the first
    log that parses to that name decides; a log that does not parse is
    passed over. *)
Fixpoint scan_logs (logs : list Log) : option number :=
  match logs with
  | [] => None
  | log :: rest =>
      match parseLog log with
      | Ok (Some parsedLog) =>
          if String.eqb (name parsedLog) "CampaignCreated"
          then Some (match args_campaignId parsedLog with
                     | Some n => of_int n
                     | None => NaN
                     end)
          else scan_logs rest
      | Ok None => scan_logs rest
      | Err parseErr => scan_logs rest
      end
  end.

(** The resolution of the identifier of the created campaign. *)
Definition resolve_campaignId (receipt : Receipt) : Prog number :=
  catch
    (match scan_logs (logs receipt) with
     | Some campaignId => ret campaignId
     | None =>
         (* If no event found, try reading campaignCount *)
         campaignCount <- await campaignCount ;;
         ret (of_int campaignCount)
     end)
    (fun countErr =>
       r <- await Math_random ;;
       ret (floor (mul (Num r) (of_int 1000000)))).

(** [app.post("/createCampaign")]. *)
Definition post_createCampaign
    (contract : option Contract) (req_body : CreateBody) (req_user : string)
    : Prog Response :=
  match contract with
  | None =>
      ret (status_json 503 (Failure (Some false) (Some "Blockchain not configured") None))
  | Some _ =>
      let title := body_title req_body in
      let description := body_description req_body in
      let goal := body_goal req_body in
      let userId := req_user in
      if negb (truthy title) || negb (truthy description)
         || match goal with JUndefined | JNull => true | _ => false end
      then ret (status_json 400
                  (Failure (Some false) (Some "title, description and goal are required") None))
      else
        catch
          (goal_s <- lift (toString goal) ;;
           goalWei <- lift (parseEther goal_s) ;;
           duration <- lift (BigInt (nullish (durationInDays req_body) (JNum (of_int 30)))) ;;
           tx <- await (createCampaign title description goalWei duration) ;;
           receipt <- await (wait tx) ;;
           campaignId <- resolve_campaignId receipt ;;
           _ <- catch
                  (readyState <- await mongoose_readyState ;;
                   if readyState =? 1 then
                     _ <- await import_Campaign ;;
                     await (Campaign_create
                              (mkDoc title description (parseFloat (ToString goal))
                                     (Some (of_int 0)) userId (hash tx) campaignId))
                   else ret tt)
                  (fun dbErr => ret tt) ;;
           ret (json (Created "Campaign created!" (hash tx)
                              (Some (blockNumber receipt)) campaignId)))
          (fun err =>
             let errorMessage :=
               or_default (or_else (err_reason err)
                             (or_else (err_shortMessage err) (err_message err)))
                          "Unknown error" in
             ret (status_json 500
                    (Failure (Some false)
                       (Some ("Failed to create campaign: " ++ errorMessage)%string)
                       (match err_code err with
                        | Some c => if truthy_string c
                                    then Some ("Error code: " ++ c)%string else None
                        | None => None
                        end))))
  end.

(** [app.post("/donate")]. *)
Definition post_donate (contract : option Contract) (req_body : DonateBody)
    : Prog Response :=
  match contract with
  | None =>
      ret (status_json 503 (Failure (Some false) (Some "Blockchain not configured") None))
  | Some _ =>
      let id := body_id req_body in
      catch
        (campaignId <- lift (BigInt id) ;;
         amount_s <- lift (toString (amount req_body)) ;;
         value <- lift (parseEther amount_s) ;;
         tx <- await (fund campaignId value) ;;
         _ <- await (wait tx) ;;
         _ <- catch
                (readyState <- await mongoose_readyState ;;
                 if readyState =? 1 then
                   _ <- await import_Campaign ;;
                   result <- await (getCampaign campaignId) ;;
                   let raisedEth := parseFloat (formatEther (amountCollected result)) in
                   _ <- await (Campaign_findOneAndUpdate (Number id) raisedEth) ;;
                   ret tt
                 else ret tt)
                (fun dbErr => ret tt) ;;
         ret (json (Donated "Donation successful!" (hash tx))))
        (fun err =>
           ret (status_json 500
                  (Failure None (or_else (err_shortMessage err) (err_message err)) None)))
  end.

(** [app.get("/campaign/:id")]. *)
Definition get_campaign (contract : option Contract) (params_id : string)
    : Prog Response :=
  match contract with
  | None => ret (status_json 503 (Failure None (Some "Blockchain not configured") None))
  | Some _ =>
      catch
        (id <- lift (BigInt_of_string params_id) ;;
         total <- await campaignCount ;;
         if id >? total then ret (status_json 404 (Failure None (Some "Not found") None))
         else
           result <- await (getCampaign id) ;;
           ret (json (Details
                        (mkDetails (of_int id) (creator result) (title result)
                                   (description result)
                                   (formatEther (goal result))
                                   (formatEther (amountCollected result))
                                   (bigint_toString (deadline result))))))
        (fun err =>
           ret (status_json 500 (Failure None (Some "Could not fetch campaign") None)))
  end.

(** [app.post("/sync-campaign")]; [campaignId] is [req.body.campaignId]. *)
Definition post_sync_campaign (contract : option Contract) (campaignId : value)
    : Prog Response :=
  match contract with
  | None =>
      ret (status_json 503 (Failure (Some false) (Some "Blockchain not configured") None))
  | Some _ =>
      catch
        (if negb (truthy campaignId)
         then ret (status_json 400 (Failure (Some false) (Some "campaignId is required") None))
         else
           id <- lift (BigInt campaignId) ;;
           result <- await (getCampaign id) ;;
           let raisedEth := parseFloat (formatEther (amountCollected result)) in
           readyState <- await mongoose_readyState ;;
           if readyState =? 1 then
             _ <- await import_Campaign ;;
             updated <- await (Campaign_findOneAndUpdate (Number campaignId) raisedEth) ;;
             match updated with
             | None =>
                 ret (json (Synced raisedEth
                              (Some "Campaign not found in MongoDB metadata")))
             | Some _ => ret (json (Synced raisedEth None))
             end
           else
             ret (json (Synced raisedEth (Some "MongoDB not connected - sync skipped"))))
        (fun err =>
           ret (status_json 500
                  (Failure (Some false)
                     (Some (or_default (err_message err) "Sync failed")) None)))
  end.

End WithLib.
End Index.

(* ===================================================================== *)
(** ** Environments                                                       *)
(* ===================================================================== *)

(** The interface of a ledger as the server reaches it through the ethers
    contract: reads do not change the ledger state, submissions may. *)
Record LedgerModel : Type := mkLedgerModel {
  LState : Type;
  led_campaignCount : LState -> result Z;
  led_getCampaign : LState -> Z -> result CampaignTuple;
  led_createCampaign : LState -> value -> value -> Z -> Z -> result Tx * LState;
  led_fund : LState -> Z -> Z -> result Tx * LState;
  led_wait : LState -> Tx -> result Receipt
}.

(** Equality of the [campaignId] of a stored document with the one of a
    query filter. *)
Definition number_eqb (a b : number) : bool :=
  match a, b with
  | Num x, Num y => Qeq_bool x y
  | _, _ => false
  end.

(** The update of [findOneAndUpdate]: the first document whose
    [campaignId] matches has its [raisedEth] replaced; the updated
    document is the answer ([{ new: true }]), [None] when none matches. *)
Fixpoint findOneAndUpdate (docs : list CampaignDoc) (id raised : number)
    : option CampaignDoc * list CampaignDoc :=
  match docs with
  | [] => (None, [])
  | d :: rest =>
      if number_eqb (campaignId d) id then
        let d' := mkDoc (doc_title d) (doc_description d) (targetEth d)
                        (Some raised) (doc_creator d) (txHash d) (campaignId d) in
        (Some d', d' :: rest)
      else
        let '(found, rest') := findOneAndUpdate rest id raised in
        (found, d :: rest')
  end.

Section Worlds.
Variable L : LedgerModel.

(** A world: the ledger, the documents of the cache store, the state of
    the mongoose connection, a fault every cache operation hits when it
    is set, and the next draw of [Math.random]. *)
Record World : Type := mkWorld {
  chain : LState L;
  db : list CampaignDoc;
  db_readyState : Z;
  db_fault : option Error;
  random : Q
}.

Definition with_chain (w : World) (c : LState L) : World :=
  mkWorld c (db w) (db_readyState w) (db_fault w) (random w).

Definition with_db (w : World) (d : list CampaignDoc) : World :=
  mkWorld (chain w) d (db_readyState w) (db_fault w) (random w).

(** A cache operation: the fault when there is one, else [op]. *)
Definition cache_op {A} (w : World) (op : result A * World) : result A * World :=
  match db_fault w with
  | Some e => (Err e, w)
  | None => op
  end.

Definition respond_world (c : Call) : World -> result (Resp c) * World :=
  match c as c0 return World -> result (Resp c0) * World with
  | campaignCount => fun w => (led_campaignCount L (chain w), w)
  | getCampaign id => fun w => (led_getCampaign L (chain w) id, w)
  | createCampaign t d g n => fun w =>
      let '(r, c') := led_createCampaign L (chain w) t d g n in (r, with_chain w c')
  | fund id v => fun w =>
      let '(r, c') := led_fund L (chain w) id v in (r, with_chain w c')
  | wait tx => fun w => (led_wait L (chain w) tx, w)
  | Math_random => fun w => (Ok (random w), w)
  | mongoose_readyState => fun w => (Ok (db_readyState w), w)
  | import_Campaign => fun w => (Ok tt, w)
  | Campaign_create doc => fun w =>
      cache_op w (Ok tt, with_db w (db w ++ [doc]))
  | Campaign_findOneAndUpdate id raised => fun w =>
      cache_op w
        (match id with
         | NaN => (Err (error "CastError" "Cast to Number failed"), w)
         | Num _ =>
             let '(found, docs) := findOneAndUpdate (db w) id raised in
             (Ok found, with_db w docs)
         end)
  end.

End Worlds.

(** *** The ledger of the specification *)

Module SpecLedger.

(** Modelled from the spec: the ledger contract itself (the Solidity
    source and its ABI) is not among the sources.  Sections 3 and 6 of the
    specification give its surface: identifiers are assigned in creation
    order starting at 1, [campaignCount] is the current count,
    [getCampaign] answers for the identifiers [1..count] and fails with
    NotFound elsewhere, [createCampaign] emits a creation event carrying
    the new identifier, and [fund] adds the attached value to
    [amountCollected]. *)
Record State : Type := mkState {
  campaigns : list CampaignTuple;
  receipts : list (string * Receipt);
  signer : string;
  now : Z
}.

Definition count (s : State) : Z := Z.of_nat (List.length (campaigns s)).

Definition NotFound : Error := error "NotFound" "no such campaign".

(** Modelled from the spec: [campaignCount() -> uint]. *)
Definition campaignCount (s : State) : result Z := Ok (count s).

(** Modelled from the spec: [getCampaign(id)], defined on [1..count]. *)
Definition getCampaign (s : State) (id : Z) : result CampaignTuple :=
  if (1 <=? id) && (id <=? count s) then
    match nth_error (campaigns s) (Z.to_nat (id - 1)) with
    | Some c => Ok c
    | None => Err NotFound
    end
  else Err NotFound.

(** The hash given to the next transaction. *)
Definition next_hash (s : State) : string :=
  ("0x" ++ bigint_toString (Z.of_nat (List.length (receipts s))))%string.

(** Modelled from the spec: [createCampaign(title, description, goal,
    durationDays)] appends a campaign under the next identifier and emits
    a creation event carrying it. *)
Definition createCampaign (s : State) (t d : value) (goalWei duration : Z)
    : result Tx * State :=
  match t, d with
  | JStr t', JStr d' =>
      let id := count s + 1 in
      let c := mkCampaign (signer s) t' d' goalWei (now s + duration * 86400) 0 in
      let h := next_hash s in
      let r := mkReceipt [Described (mkLogDescription "CampaignCreated" (Some id))]
                         (Z.of_nat (List.length (receipts s)) + 1) in
      (Ok (mkTx h),
       mkState (campaigns s ++ [c]) ((h, r) :: receipts s) (signer s) (now s))
  | _, _ => (Err (error "TypeError" "invalid string value"), s)
  end.

(** The campaigns with [v] added to the amount of the one at position
    [k]. *)
Fixpoint add_amount (cs : list CampaignTuple) (k : nat) (v : Z) : list CampaignTuple :=
  match cs, k with
  | [], _ => []
  | c :: rest, O =>
      mkCampaign (creator c) (title c) (description c) (goal c) (deadline c)
                 (amountCollected c + v) :: rest
  | c :: rest, S k' => c :: add_amount rest k' v
  end.

(** Modelled from the spec: [fund(id) payable] increases
    [amountCollected] by the attached value. *)
Definition fund (s : State) (id v : Z) : result Tx * State :=
  if (1 <=? id) && (id <=? count s) then
    let h := next_hash s in
    let r := mkReceipt [Described (mkLogDescription "Funded" (Some id))]
                       (Z.of_nat (List.length (receipts s)) + 1) in
    (Ok (mkTx h),
     mkState (add_amount (campaigns s) (Z.to_nat (id - 1)) v)
             ((h, r) :: receipts s) (signer s) (now s))
  else (Err (error "Reverted" "no such campaign"), s).

Fixpoint lookup (h : string) (l : list (string * Receipt)) : option Receipt :=
  match l with
  | [] => None
  | (h', r) :: rest => if String.eqb h h' then Some r else lookup h rest
  end.

(** [tx.wait()]: the receipt of a transaction the ledger included. *)
Definition wait (s : State) (tx : Tx) : result Receipt :=
  match lookup (hash tx) (receipts s) with
  | Some r => Ok r
  | None => Err (error "NetworkUnavailable" "unknown transaction")
  end.

Definition model : LedgerModel :=
  mkLedgerModel campaignCount getCampaign createCampaign fund wait.

End SpecLedger.

(* ===================================================================== *)
(** ** Notions used by the statements                                     *)
(* ===================================================================== *)

(** The [n] identifiers from [i] on, ascending. *)
Fixpoint upto (n : nat) (i : Z) : list Z :=
  match n with
  | O => []
  | S n' => i :: upto n' (i + 1)
  end.

(** The identifiers [1..count]. *)
Definition identifiers (count : Z) : list Z := upto (Z.to_nat count) 1.

(** The identifiers whose [getCampaign] resolved during a run, in the
    order of the calls. *)
Fixpoint fetched (tr : list Event) : list Z :=
  match tr with
  | [] => []
  | mkEvent (getCampaign i) true :: rest => i :: fetched rest
  | _ :: rest => fetched rest
  end.

(** How many times a sequence of calls reads [campaignCount]. *)
Definition count_reads (cs : list Call) : nat :=
  List.length (filter (fun c => match c with campaignCount => true | _ => false end) cs).

(** The documents handed to [Campaign.create] during a run. *)
Fixpoint created_docs (tr : list Event) : list CampaignDoc :=
  match tr with
  | [] => []
  | mkEvent (Campaign_create d) _ :: rest => d :: created_docs rest
  | _ :: rest => created_docs rest
  end.

(** The submissions of [createCampaign] during a run, with the duration
    each one carries. *)
Fixpoint submitted_durations (tr : list Event) : list Z :=
  match tr with
  | [] => []
  | mkEvent (createCampaign _ _ _ n) _ :: rest => n :: submitted_durations rest
  | _ :: rest => submitted_durations rest
  end.

(** The identifier a [Created] response carries. *)
Definition created_id (r : Response) : option number :=
  match body r with
  | Created _ _ _ id => Some id
  | _ => None
  end.

(** A response is a success when its status is 200 and its body is not a
    failure body. *)
Definition is_success (r : Response) : bool :=
  (status r =? 200) &&
  match body r with Failure _ _ _ => false | _ => true end.

(** A response is the empty sequence when its status is 200 and its body
    is an empty array. *)
Definition answers_empty_sequence (r : Response) : bool :=
  (status r =? 200) &&
  match body r with
  | Campaigns [] | Formatted [] => true
  | _ => false
  end.

(* ===================================================================== *)
(** ** Concrete environments                                              *)
(* ===================================================================== *)

Module Demo.

(** An implementation of the string functions, enough for the examples:
    decimal numerals as ether amounts of exactly that many wei. *)
Definition digit (a : Ascii.ascii) : option Z :=
  let n := Z.of_nat (Ascii.nat_of_ascii a) in
  if (48 <=? n) && (n <=? 57) then Some (n - 48) else None.

Fixpoint digits (s : string) (acc : Z) : option Z :=
  match s with
  | EmptyString => Some acc
  | String a rest =>
      match digit a with
      | Some d => digits rest (10 * acc + d)
      | None => None
      end
  end.

Definition numeral (s : string) : option Z :=
  match s with
  | EmptyString => None
  | _ => digits s 0
  end.

#[export] Instance lib : Lib := {|
  StringToBigInt := numeral;
  StringToNumber := fun s => match numeral s with Some z => of_int z | None => NaN end;
  NumberToString := fun q => bigint_toString (Qfloor q);
  parseFloat := fun s => match numeral s with Some z => of_int z | None => NaN end;
  parseEther := fun s => match numeral s with
                         | Some z => Ok z
                         | None => Err (error "TypeError" "invalid FixedNumber string value")
                         end;
  formatEther := bigint_toString
|}.

(** A ledger node seen as a snapshot: a count, and a campaign or a
    failure for every identifier; every other call fails. *)
Definition snapshot (count : result Z) (fetch : Z -> result CampaignTuple)
    (c : Call) (s : unit) : result (Resp c) * unit :=
  match c as c0 return result (Resp c0) * unit with
  | campaignCount => (count, s)
  | getCampaign i => (fetch i, s)
  | createCampaign _ _ _ _ => (Err (error "Error" "read-only"), s)
  | fund _ _ => (Err (error "Error" "read-only"), s)
  | wait _ => (Err (error "Error" "read-only"), s)
  | Math_random => (Ok (1 # 2)%Q, s)
  | mongoose_readyState => (Ok 0, s)
  | import_Campaign => (Ok tt, s)
  | Campaign_create _ => (Err (error "MongoError" "not connected"), s)
  | Campaign_findOneAndUpdate _ _ => (Err (error "MongoError" "not connected"), s)
  end.

Definition a_campaign (i : Z) : CampaignTuple :=
  mkCampaign "0xowner" ("campaign " ++ bigint_toString i)%string "d" 1000 1700000000 0.

(** Five campaigns, the third of which cannot be fetched. *)
Definition five_with_gap : forall c : Call, unit -> result (Resp c) * unit :=
  snapshot (Ok 5)
    (fun i => if i =? 3 then Err (error "Error" "call revert exception")
              else Ok (a_campaign i)).

(** A ledger of the specification holding four campaigns. *)
Definition four_campaigns : SpecLedger.State :=
  SpecLedger.mkState (map a_campaign [1; 2; 3; 4]) [] "0xsigner" 1700000000.

Definition world (s : SpecLedger.State) (docs : list CampaignDoc)
    (ready : Z) (fault : option Error) : World SpecLedger.model :=
  mkWorld SpecLedger.model s docs ready fault (1 # 2)%Q.

(** A ledger node that accepts submissions, whose receipts carry no
    event the interface can parse, and whose reads all fail. *)
Definition silent_ledger : LedgerModel :=
  mkLedgerModel (LState := unit)
    (fun _ => Err (error "NetworkUnavailable" "timeout"))
    (fun _ _ => Err (error "NetworkUnavailable" "timeout"))
    (fun s _ _ _ _ => (Ok (mkTx "0xabc"), s))
    (fun s _ _ => (Ok (mkTx "0xdef"), s))
    (fun _ _ => Ok (mkReceipt [NoFragment] 7)).

Definition silent_world (docs : list CampaignDoc) (ready : Z) (fault : option Error)
    : World silent_ledger :=
  mkWorld silent_ledger tt docs ready fault (1 # 2)%Q.

Definition request : CreateBody :=
  mkCreateBody (JStr "A") (JStr "d") (JStr "1000") JUndefined.

Definition donation : DonateBody := mkDonateBody (JStr "1") (JStr "100").

(** A creation against the silent ledger, the cache store connected. *)
Definition silent_run : Run (World silent_ledger) Response :=
  run (respond_world (L := silent_ledger))
      (Index.post_createCampaign (Some EthersContract) request "u1")
      (silent_world [] 1 None).

(** A cache store every operation of which fails. *)
Definition cache_down : Error := error "MongoNetworkError" "connection refused".

End Demo.

(* ===================================================================== *)
(** ** controllers/campaignController.js: donations                       *)
(* ===================================================================== *)

Section ControllerDonation.
Context {lib : Lib}.

(** [donateToCampaign(req, res)], with [req.app.locals.contract] and
    [req.body]. *)
Definition donateToCampaign (contract : option Contract) (req_body : DonateBody)
    : Prog Response :=
  match contract with
  | None =>
      ret (status_json 503 (Failure (Some false) (Some "Blockchain not configured") None))
  | Some _ =>
      catch
        (let id := body_id req_body in
         let amount := amount req_body in
         if match id with JUndefined => true | _ => false end
            || match amount with JUndefined => true | _ => false end
         then ret (status_json 400 (Failure None (Some "id and amount required") None))
         else
           campaignId <- lift (BigInt id) ;;
           amount_s <- lift (toString amount) ;;
           value <- lift (parseEther amount_s) ;;
           tx <- await (fund campaignId value) ;;
           _ <- await (wait tx) ;;
           ret (json (Donated "Donation successful" (hash tx))))
        (fun err =>
           ret (status_json 500
                  (Failure None
                     (Some (or_default (or_else (err_shortMessage err) (err_message err))
                                       "Donation failed"))
                     None)))
  end.

End ControllerDonation.

(* ===================================================================== *)
(** ** server/index.js: the start-up of the contract                      *)
(* ===================================================================== *)

Module Startup.

(** The three variables of [process.env] the set-up reads; a variable
    that is not set is [None]. *)
Record Env : Type := mkEnv {
  RPC_URL : option string;
  PRIVATE_KEY : option string;
  CONTRACT_ADDRESS : option string
}.

(** What the external steps of the set-up give, each of them made at
    most once and in this order: [fs.existsSync(abiPath)]; reading and
    parsing the ABI and constructing the provider, the wallet and the
    contract; [provider.getCode(address)]; the probing
    [contract.campaignCount()]. *)
Record Steps : Type := mkSteps {
  existsSync : bool;
  construct : result Contract;
  getCode : result string;
  probe : result Z
}.

(** Truthiness of an environment variable. *)
Definition set (v : option string) : bool :=
  match v with
  | Some s => truthy_string s
  | None => false
  end.

(** The value of the global [contract] once the set-up is over. *)
Definition contract (env : Env) (steps : Steps) : option Contract :=
  if set (RPC_URL env) && set (PRIVATE_KEY env) && set (CONTRACT_ADDRESS env) then
    if negb (existsSync steps) then None
    else
      match construct steps with
      | Err err => None
      | Ok contract =>
          match getCode steps with
          | Err networkErr => None
          | Ok code =>
              if String.eqb code "0x" then None
              else
                match probe steps with
                | Err testErr => None
                | Ok _ => Some contract
                end
          end
      end
  else None.

End Startup.

(* ===================================================================== *)
(** ** server/utils/sendEmail.js                                          *)
(* ===================================================================== *)

Module SendEmail.

(** The variables of [process.env] the mailer reads. *)
Record Env : Type := mkEnv {
  SMTP_HOST : option string;
  SMTP_PORT : option string;
  SMTP_USER : option string;
  SMTP_PASS : option string;
  SMTP_SECURE : option string;
  EMAIL_USER : option string;
  EMAIL_PASS : option string
}.

(** The options handed to [nodemailer.createTransport]; the transporter
    is represented by them. *)
Inductive Transporter : Type :=
| Smtp (host : string) (port : number) (secure : bool) (user pass : string)
| Gmail (user pass : string).

(** The message handed to [sendMail]. *)
Record Mail : Type := mkMail {
  from : option string;
  to : string;
  subject : string;
  text : string
}.

(** The value of an environment variable when it is truthy, that is set
    and not empty. *)
Definition present (v : option string) : option string :=
  match v with
  | Some s => if truthy_string s then Some s else None
  | None => None
  end.

Section WithLib.
Context {lib : Lib}.

(** [createTransporter()]: the module-level [transporter] is the state;
    the answer is the transporter or the error thrown, and the new
    state. *)
Definition createTransporter (env : Env) (transporter : option Transporter)
    : result Transporter * option Transporter :=
  match transporter with
  | Some t => (Ok t, transporter)
  | None =>
      match present (SMTP_HOST env), present (SMTP_PORT env),
            present (SMTP_USER env), present (SMTP_PASS env) with
      | Some host, Some port, Some user, Some pass =>
          let t := Smtp host (StringToNumber port)
                        (match SMTP_SECURE env with
                         | Some s => String.eqb s "true"
                         | None => false
                         end)
                        user pass in
          (Ok t, Some t)
      | _, _, _, _ =>
          match present (EMAIL_USER env), present (EMAIL_PASS env) with
          | Some user, Some pass =>
              let t := Gmail user pass in
              (Ok t, Some t)
          | _, _ =>
              (Err (error "Error"
                      "Email not configured. Add SMTP or Gmail credentials in .env"),
               None)
          end
      end
  end.

(** [sendEmail(to, subject, text)]: [sendMail] is the awaited
    [mailTransporter.sendMail]; the answer comes with the new state and
    with the messages handed to [sendMail]. *)
Definition sendEmail (env : Env) (sendMail : Transporter -> Mail -> result unit)
    (transporter : option Transporter) (to subject text : string)
    : result unit * option Transporter * list (Transporter * Mail) :=
  match createTransporter env transporter with
  | (Err e, st) => (Err e, st, [])
  | (Ok mailTransporter, st) =>
      let mail := mkMail (or_else (SMTP_USER env) (EMAIL_USER env)) to subject text in
      (sendMail mailTransporter mail, st, [(mailTransporter, mail)])
  end.

End WithLib.

(** The user a transporter authenticates as. *)
Definition auth_user (t : Transporter) : string :=
  match t with
  | Smtp _ _ _ user _ => user
  | Gmail user _ => user
  end.

End SendEmail.

(* ===================================================================== *)
(** ** Further notions used by the statements                             *)
(* ===================================================================== *)

(** Whether a receipt log parses to a [CampaignCreated] event. *)
Definition is_created (log : Log) : bool :=
  match parseLog log with
  | Ok (Some d) => String.eqb (name d) "CampaignCreated"
  | _ => false
  end.

(** The status a run answered with, when it did not throw. *)
Definition answered {St : Type} (r : Run St Response) : option Z :=
  match outcome r with
  | Ok resp => Some (status resp)
  | Err _ => None
  end.

(** The calls that reach the cache store. *)
Definition touches_cache (c : Call) : bool :=
  match c with
  | mongoose_readyState | import_Campaign
  | Campaign_create _ | Campaign_findOneAndUpdate _ _ => true
  | _ => false
  end.

(** The calls that submit a transaction to the ledger. *)
Definition is_submission (c : Call) : bool :=
  match c with
  | createCampaign _ _ _ _ | fund _ _ => true
  | _ => false
  end.

(** The condition under which the create handlers refuse a body. *)
Definition missing_fields (b : CreateBody) : bool :=
  negb (truthy (body_title b)) || negb (truthy (body_description b))
  || match body_goal b with JUndefined | JNull => true | _ => false end.

(** The entry [GET /campaigns] builds from the tuple of campaign [i]. *)
Definition listed_view {lib : Lib} (i : Z) (result : CampaignTuple) : ListedCampaign :=
  mkListed i (creator result)
           (string_or (title result) "Untitled Campaign")
           (string_or (description result) "No description")
           (formatEther (goal result))
           (if deadline result =? 0 then "0" else bigint_toString (deadline result))
           (formatEther (amountCollected result)).

(** The entry [fetchAllCampaigns] builds from the tuple of campaign [i]. *)
Definition raw_view (i : Z) (result : CampaignTuple) : RawCampaign :=
  mkRaw i (creator result) (title result) (description result)
        (bigint_toString (goal result))
        (bigint_toString (amountCollected result))
        (if deadline result =? 0 then None else Some (bigint_toString (deadline result))).

(** The entries of the identifiers [ids] that a ledger snapshot [fetch]
    answers for, in order. *)
Fixpoint collect {V : Type} (fetch : Z -> result CampaignTuple)
    (entry : Z -> CampaignTuple -> V) (ids : list Z) : list V :=
  match ids with
  | [] => []
  | i :: rest =>
      match fetch i with
      | Ok c => entry i c :: collect fetch entry rest
      | Err _ => collect fetch entry rest
      end
  end.

(** What every run of a create handler satisfies: a 200 answer and every
    cache document come with a confirmed transaction, at most one
    document is created and at most one transaction submitted, and the
    cache store is reached only after the confirmation. *)
Definition create_shape {St : Type} (message : string) (r : Run St Response) : Prop :=
  (answered r = Some 200 ->
   exists tx bn id,
     In (mkEvent (wait tx) true) (trace r)
     /\ outcome r = Ok (json (Created message (hash tx) bn id)))
  /\ (forall d, In d (created_docs (trace r)) ->
      exists tx bn,
        In (mkEvent (wait tx) true) (trace r)
        /\ txHash d = hash tx
        /\ outcome r = Ok (json (Created message (hash tx) bn (campaignId d))))
  /\ (List.length (created_docs (trace r)) <= 1)%nat
  /\ (List.length (filter is_submission (map ev_call (trace r))) <= 1)%nat
  /\ (forall c, In c (map ev_call (trace r)) -> touches_cache c = true ->
      exists tx, In (mkEvent (wait tx) true) (trace r)).

(** What every run of a donation handler satisfies. *)
Definition donate_shape {St : Type} (message : string) (key : number)
    (r : Run St Response) : Prop :=
  (answered r = Some 200 <-> exists tx, In (mkEvent (wait tx) true) (trace r))
  /\ (forall tx, In (mkEvent (wait tx) true) (trace r) ->
      outcome r = Ok (json (Donated message (hash tx))))
  /\ created_docs (trace r) = []
  /\ (List.length (filter is_submission (map ev_call (trace r))) <= 1)%nat
  /\ (forall c, In c (map ev_call (trace r)) -> touches_cache c = true ->
      exists tx, In (mkEvent (wait tx) true) (trace r))
  /\ (forall n a, In (Campaign_findOneAndUpdate n a) (map ev_call (trace r)) -> n = key).

(** What every run of [POST /sync-campaign] satisfies. *)
Definition sync_shape {St : Type} (r : Run St Response) : Prop :=
  (forall c, In c (map ev_call (trace r)) ->
             is_submission c = false
             /\ c <> campaignCount
             /\ forall d, c <> Campaign_create d)
  /\ (List.length (filter is_ledger_read (map ev_call (trace r))) <= 1)%nat
  /\ (forall e, In e (trace r) -> ev_ok e = false -> answered r = Some 500)
  /\ exists resp, outcome r = Ok resp.

Module Examples.

(** The ledger of the specification behind an interface that cannot
    parse its events: receipts come without logs. *)
Definition legacy_ledger : LedgerModel :=
  mkLedgerModel SpecLedger.campaignCount SpecLedger.getCampaign
    SpecLedger.createCampaign SpecLedger.fund
    (fun s tx => match SpecLedger.wait s tx with
                 | Ok r => Ok (mkReceipt [] (blockNumber r))
                 | Err e => Err e
                 end).

Definition legacy_world (s : SpecLedger.State) (docs : list CampaignDoc)
    : World legacy_ledger :=
  mkWorld legacy_ledger s docs 1 None (1 # 2)%Q.

(** A cache document of the fifth campaign. *)
Definition fifth_doc : CampaignDoc :=
  mkDoc (JStr "A") (JStr "d") (of_int 1000) (Some (of_int 0)) "u1" "0x0" (of_int 5).

(** The ledger of four campaigns after a fifth was created. *)
Definition five_campaigns : SpecLedger.State :=
  snd (SpecLedger.createCampaign Demo.four_campaigns (JStr "A") (JStr "d") 1000 30).

Definition smtp_env : SendEmail.Env :=
  SendEmail.mkEnv (Some "smtp.example.org") (Some "587") (Some "mailer")
                  (Some "secret") (Some "false") (Some "someone@gmail.com") (Some "pw").

Definition gmail_env : SendEmail.Env :=
  SendEmail.mkEnv (Some "smtp.example.org") None (Some "mailer")
                  (Some "secret") None (Some "someone@gmail.com") (Some "pw").

Definition no_mail_env : SendEmail.Env :=
  SendEmail.mkEnv None None None None None (Some "someone@gmail.com") None.

Definition started : Startup.Steps :=
  Startup.mkSteps true (Ok EthersContract) (Ok "0x6080") (Ok 4).

Definition full_env : Startup.Env :=
  Startup.mkEnv (Some "http://127.0.0.1:8545") (Some "0xkey") (Some "0xaddr").

End Examples.

(* ===================================================================== *)
(** ** Running: composition lemmas                                        *)
(* ===================================================================== *)

Section RunLemmas.
Context {St : Type}.
Variable respond : forall c : Call, St -> result (Resp c) * St.

Lemma run_bind {A B} (p : Prog A) (f : A -> Prog B) (s : St) :
  run respond (bind p f) s =
  match outcome (run respond p s) with
  | Ok a =>
      let r2 := run respond (f a) (final (run respond p s)) in
      mkRun (outcome r2) (final r2) (trace (run respond p s) ++ trace r2)
  | Err e => mkRun (Err e) (final (run respond p s)) (trace (run respond p s))
  end.
Proof.
  revert s; induction p as [a | e | c k IH]; intro s; cbn.
  - destruct (run respond (f a) s); reflexivity.
  - reflexivity.
  - rewrite IH.
    destruct (outcome (run respond (k (fst (respond c s))) (snd (respond c s))));
      reflexivity.
Qed.

Lemma run_try_catch {A} (p : Prog A) (h : Error -> Prog A) (s : St) :
  run respond (try_catch p h) s =
  match outcome (run respond p s) with
  | Ok a => run respond p s
  | Err e =>
      let r2 := run respond (h e) (final (run respond p s)) in
      mkRun (outcome r2) (final r2) (trace (run respond p s) ++ trace r2)
  end.
Proof.
  revert s; induction p as [a | e | c k IH]; intro s; cbn.
  - reflexivity.
  - destruct (run respond (h e) s); reflexivity.
  - rewrite IH.
    destruct (outcome (run respond (k (fst (respond c s))) (snd (respond c s)))) eqn:E;
      cbn.
    + rewrite E. reflexivity.
    + reflexivity.
Qed.

(** An attempted call never throws: its outcome is a value. *)
Lemma run_attempt_await (c : Call) (s : St) :
  run respond (attempt (await c)) s =
  mkRun (Ok (fst (respond c s))) (snd (respond c s))
        [mkEvent c (is_ok (fst (respond c s)))].
Proof.
  cbn. destruct (respond c s) as [[x | e] s']; reflexivity.
Qed.

(** *** The enumeration loop *)

Section Loop.
Variable V : Type.
Variable entry : Z -> CampaignTuple -> V.
Variable id_of : V -> Z.
Hypothesis id_of_entry : forall i c, id_of (entry i c) = i.
Variable step : Z -> list V -> Prog (list V).
Hypothesis run_step : forall i acc s,
  run respond (step i acc) s =
  mkRun (Ok (match fst (respond (getCampaign i) s) with
             | Ok c => acc ++ [entry i c]
             | Err _ => acc
             end))
        (snd (respond (getCampaign i) s))
        [mkEvent (getCampaign i) (is_ok (fst (respond (getCampaign i) s)))].
Variable total : Z.

(** One run of the loop from [i]: it never throws, it calls
    [getCampaign] once for each of the [fuel] identifiers from [i] on,
    and it appends one entry for each call that resolved. *)
Lemma run_for_to (fuel : nat) :
  forall i acc s,
    Z.of_nat fuel = Z.max 0 (total - i + 1) ->
    exists new,
      outcome (run respond (for_to fuel i total step acc) s) = Ok (acc ++ new)
      /\ map ev_call (trace (run respond (for_to fuel i total step acc) s))
         = map getCampaign (upto fuel i)
      /\ map id_of new
         = fetched (trace (run respond (for_to fuel i total step acc) s)).
Proof.
  induction fuel as [| fuel IH]; intros i acc s Hfuel.
  - exists []. cbn. rewrite app_nil_r. auto.
  - assert (Hle : (i <=? total) = true) by (apply Z.leb_le; lia).
    cbn [for_to]. rewrite Hle.
    cbn [Monad.bind Monad_Prog]. rewrite run_bind, run_step.
    cbn [outcome final trace].
    destruct (respond (getCampaign i) s) as [[c | e] s1]; cbn [fst snd is_ok].
    + destruct (IH (i + 1) (acc ++ [entry i c]) s1) as (new & Hout & Hcalls & Hids);
        [lia |].
      exists (entry i c :: new). cbn zeta. cbn [outcome trace app map fetched upto].
      rewrite Hout, Hcalls, id_of_entry, Hids, <- app_assoc. auto.
    + destruct (IH (i + 1) acc s1) as (new & Hout & Hcalls & Hids); [lia |].
      exists new. cbn zeta. cbn [outcome trace app map fetched upto].
      rewrite Hout, Hcalls, Hids. auto.
Qed.

(** The loop leaves through its guard: more iterations allowed change
    nothing. *)
Lemma run_for_to_fuel (fuel : nat) :
  forall extra i acc s,
    Z.of_nat fuel = Z.max 0 (total - i + 1) ->
    run respond (for_to (fuel + extra) i total step acc) s
    = run respond (for_to fuel i total step acc) s.
Proof.
  induction fuel as [| fuel IH]; intros extra i acc s Hfuel.
  - destruct extra as [| extra]; [reflexivity |].
    cbn [for_to Nat.add].
    assert (Hle : (i <=? total) = false) by (apply Z.leb_gt; lia).
    rewrite Hle. reflexivity.
  - cbn [for_to Nat.add].
    destruct (i <=? total); [| reflexivity].
    cbn [Monad.bind Monad_Prog]. rewrite !run_bind, run_step.
    cbn [outcome final trace]. rewrite IH by lia. reflexivity.
Qed.

End Loop.

End RunLemmas.

(** The identifiers from [i] on are strictly ascending. *)
Lemma upto_lower (n : nat) : forall i j, In j (upto n i) -> i <= j.
Proof.
  induction n as [| n IH]; intros i j Hin; cbn in Hin.
  - contradiction.
  - destruct Hin as [<- | Hin]; [lia |]. apply IH in Hin. lia.
Qed.

Lemma upto_sorted (n : nat) : forall i, StronglySorted Z.lt (upto n i).
Proof.
  induction n as [| n IH]; intro i; cbn; constructor.
  - apply IH.
  - apply Forall_forall. intros j Hin. apply upto_lower in Hin. lia.
Qed.

Lemma upto_bounds (n : nat) : forall i j, In j (upto n i) <-> i <= j < i + Z.of_nat n.
Proof.
  induction n as [| n IH]; intros i j; cbn [upto In].
  - split; [contradiction | lia].
  - rewrite IH. lia.
Qed.

Lemma identifiers_spec (count j : Z) : In j (identifiers count) <-> 1 <= j <= count.
Proof.
  unfold identifiers. rewrite upto_bounds. lia.
Qed.

(** The identifiers fetched in a run over [ids] whose fetches resolve
    exactly outside [fails]. *)
Lemma fetched_filter (fails : Z -> bool) (ids : list Z) (tr : list Event) :
  map ev_call tr = map getCampaign ids ->
  (forall e i, In e tr -> ev_call e = getCampaign i -> ev_ok e = negb (fails i)) ->
  fetched tr = filter (fun i => negb (fails i)) ids.
Proof.
  revert ids; induction tr as [| [c ok] tr IH]; intros [| i ids] Hcalls Hok;
    cbn in Hcalls; try discriminate; [reflexivity |].
  injection Hcalls as Hc Hrest. subst c.
  assert (Hi : ok = negb (fails i)) by (apply (Hok (mkEvent (getCampaign i) ok) i); cbn; auto).
  cbn [fetched filter]. rewrite <- Hi.
  rewrite (IH ids Hrest) by (intros e j He; apply Hok; right; exact He).
  destruct ok; reflexivity.
Qed.

Lemma fetched_incl (tr : list Event) :
  forall ids j, map ev_call tr = map getCampaign ids -> In j (fetched tr) -> In j ids.
Proof.
  induction tr as [| [c ok] tr IH]; intros [| i ids] j Hcalls Hin;
    cbn in Hcalls; try discriminate; [contradiction |].
  injection Hcalls as Hc Hrest. subst c.
  destruct ok; cbn in Hin.
  - destruct Hin as [<- | Hin]; [left; reflexivity | right; eauto].
  - right; eauto.
Qed.

Lemma fetched_sorted (tr : list Event) :
  forall ids, map ev_call tr = map getCampaign ids ->
              StronglySorted Z.lt ids -> StronglySorted Z.lt (fetched tr).
Proof.
  induction tr as [| [c ok] tr IH]; intros [| i ids] Hcalls Hs;
    cbn in Hcalls; try discriminate; [constructor |].
  injection Hcalls as Hc Hrest. subst c.
  inversion Hs as [| ? ? Hs' Hall]; subst.
  destruct ok; cbn; [| eauto].
  constructor; [eauto |].
  apply Forall_forall. intros j Hj.
  rewrite Forall_forall in Hall. apply Hall. eapply fetched_incl; eauto.
Qed.

(** How many times a run read [campaignCount]. *)
Lemma count_reads_getCampaign (ids : list Z) :
  filter (fun c => match c with campaignCount => true | _ => false end)
         (map getCampaign ids) = [].
Proof.
  induction ids as [| i ids IH]; [reflexivity | exact IH].
Qed.

(* ===================================================================== *)
(** ** Enumeration: [fetchAllCampaigns] and [GET /campaigns]              *)
(* ===================================================================== *)

Section Enumeration.
Context {lib : Lib} {St : Type}.
Variable respond : forall c : Call, St -> result (Resp c) * St.

Lemma run_await (c : Call) (s : St) :
  run respond (await c) s =
  mkRun (fst (respond c s)) (snd (respond c s))
        [mkEvent c (is_ok (fst (respond c s)))].
Proof.
  cbn. destruct (respond c s) as [[x | e] s']; reflexivity.
Qed.

Lemma run_fetch_step (i : Z) (out : list RawCampaign) (s : St) :
  run respond (Blockchain.fetch_step i out) s =
  mkRun (Ok (match fst (respond (getCampaign i) s) with
             | Ok result =>
                 out ++ [mkRaw i (creator result) (title result) (description result)
                           (bigint_toString (goal result))
                           (bigint_toString (amountCollected result))
                           (if deadline result =? 0 then None
                            else Some (bigint_toString (deadline result)))]
             | Err _ => out
             end))
        (snd (respond (getCampaign i) s))
        [mkEvent (getCampaign i) (is_ok (fst (respond (getCampaign i) s)))].
Proof.
  unfold Blockchain.fetch_step. cbn.
  destruct (respond (getCampaign i) s) as [[x | e] s']; reflexivity.
Qed.

Lemma run_campaigns_step (i : Z) (campaigns : list ListedCampaign) (s : St) :
  run respond (Index.campaigns_step i campaigns) s =
  mkRun (Ok (match fst (respond (getCampaign i) s) with
             | Ok result =>
                 campaigns ++
                 [mkListed i (creator result)
                    (string_or (title result) "Untitled Campaign")
                    (string_or (description result) "No description")
                    (formatEther (goal result))
                    (if deadline result =? 0 then "0"
                     else bigint_toString (deadline result))
                    (formatEther (amountCollected result))]
             | Err _ => campaigns
             end))
        (snd (respond (getCampaign i) s))
        [mkEvent (getCampaign i) (is_ok (fst (respond (getCampaign i) s)))].
Proof.
  unfold Index.campaigns_step. cbn.
  destruct (respond (getCampaign i) s) as [[x | e] s']; reflexivity.
Qed.

(** [fetchAllCampaigns] when the count read resolves: the calls made, and
    the identifiers of the entries it resolves to. *)
Lemma fetchAllCampaigns_run (contract : Contract) (s : St) (count : Z) :
  fst (respond campaignCount s) = Ok count ->
  exists out,
    outcome (run respond (Blockchain.fetchAllCampaigns (Some contract)) s) = Ok out
    /\ calls respond (Blockchain.fetchAllCampaigns (Some contract)) s
       = campaignCount :: map getCampaign (identifiers count)
    /\ map rc_id out
       = fetched (trace (run respond (Blockchain.fetchAllCampaigns (Some contract)) s)).
Proof.
  intro Hcount.
  unfold calls, Blockchain.fetchAllCampaigns.
  cbn [Monad.bind Monad_Prog ret].
  rewrite run_bind, (run_await campaignCount), Hcount. cbn [outcome final trace is_ok].
  rewrite run_bind.
  destruct (run_for_to respond
              (fun i result =>
                 mkRaw i (creator result) (title result) (description result)
                   (bigint_toString (goal result))
                   (bigint_toString (amountCollected result))
                   (if deadline result =? 0 then None
                    else Some (bigint_toString (deadline result))))
              rc_id (fun _ _ => eq_refl) Blockchain.fetch_step run_fetch_step
              count (Z.to_nat count) 1 [] (snd (respond campaignCount s)))
    as (new & Hout & Hcalls & Hids); [lia |].
  rewrite Hout. cbn zeta. cbn [outcome trace run app map fetched].
  rewrite app_nil_r, Hcalls, <- Hids.
  eexists. repeat split. rewrite map_map. reflexivity.
Qed.

(** [GET /campaigns] when the count read resolves. *)
Lemma get_campaigns_run (contract : Contract) (s : St) (count : Z) :
  fst (respond campaignCount s) = Ok count ->
  exists l,
    outcome (run respond (Index.get_campaigns (Some contract)) s)
      = Ok (json (Campaigns l))
    /\ calls respond (Index.get_campaigns (Some contract)) s
       = campaignCount :: map getCampaign (identifiers count)
    /\ map lc_id l
       = fetched (trace (run respond (Index.get_campaigns (Some contract)) s)).
Proof.
  intro Hcount.
  unfold calls, Index.get_campaigns.
  cbn [Monad.bind Monad_Prog ret catch MonadExc_Prog].
  rewrite run_try_catch, run_bind, (run_attempt_await respond campaignCount), Hcount.
  cbn [outcome final trace is_ok].
  destruct ((count <? 0) || (count =? 0)) eqn:Hz.
  - exists []. cbn.
    assert (Hid : identifiers count = []).
    { unfold identifiers. replace (Z.to_nat count) with O; [reflexivity |].
      apply orb_true_iff in Hz. destruct Hz as [Hz | Hz];
        [apply Z.ltb_lt in Hz | apply Z.eqb_eq in Hz]; lia. }
    rewrite Hid. auto.
  - rewrite run_bind.
    destruct (run_for_to respond
                (fun i result =>
                   mkListed i (creator result)
                     (string_or (title result) "Untitled Campaign")
                     (string_or (description result) "No description")
                     (formatEther (goal result))
                     (if deadline result =? 0 then "0"
                      else bigint_toString (deadline result))
                     (formatEther (amountCollected result)))
                lc_id (fun _ _ => eq_refl) Index.campaigns_step run_campaigns_step
                count (Z.to_nat count) 1 [] (snd (respond campaignCount s)))
      as (new & Hout & Hcalls & Hids); [lia |].
    rewrite Hout. cbn zeta. cbn [outcome trace run app map fetched].
    rewrite app_nil_r, Hcalls, <- Hids.
    exists new. repeat split.
Qed.

(** When the count read fails, it is the only call made:
    [fetchAllCampaigns] rejects with the error of the read. *)
Lemma fetchAllCampaigns_count_fails (contract : Contract) (s : St) (e : Error) :
  fst (respond campaignCount s) = Err e ->
  outcome (run respond (Blockchain.fetchAllCampaigns (Some contract)) s) = Err e
  /\ calls respond (Blockchain.fetchAllCampaigns (Some contract)) s = [campaignCount]
  /\ calls respond (Index.get_campaigns (Some contract)) s = [campaignCount].
Proof.
  intro Hcount.
  unfold calls, Blockchain.fetchAllCampaigns, Index.get_campaigns.
  cbn [Monad.bind Monad_Prog ret catch MonadExc_Prog].
  rewrite run_try_catch, !run_bind, (run_await campaignCount),
    (run_attempt_await respond campaignCount), Hcount.
  cbn. auto.
Qed.

End Enumeration.

Section EnumerationClaims.
Context {lib : Lib} {St : Type}.
Variable respond : forall c : Call, St -> result (Resp c) * St.

(** Every event of a run records the outcome the environment gave to its
    call in some state. *)
Lemma trace_ok {A} (p : Prog A) :
  forall s e, In e (trace (run respond p s)) ->
              exists s', ev_ok e = is_ok (fst (respond (ev_call e) s')).
Proof.
  induction p as [a | err | c k IH]; intros s e Hin; cbn in Hin.
  - contradiction.
  - contradiction.
  - destruct Hin as [<- | Hin].
    + exists s. reflexivity.
    + eapply IH; eauto.
Qed.

Lemma fetched_after_count (fails : Z -> bool) (ids : list Z) (tr : list Event) :
  map ev_call tr = campaignCount :: map getCampaign ids ->
  (forall e i, In e tr -> ev_call e = getCampaign i -> ev_ok e = negb (fails i)) ->
  fetched tr = filter (fun i => negb (fails i)) ids.
Proof.
  destruct tr as [| [c ok] tr]; cbn; [discriminate |].
  intros Hcalls Hok. injection Hcalls as Hc Hrest. subst c.
  cbn [fetched]. apply fetched_filter; [exact Hrest |].
  intros e i He. apply Hok. right. exact He.
Qed.

Lemma fetched_after_count_sorted (ids : list Z) (tr : list Event) :
  map ev_call tr = campaignCount :: map getCampaign ids ->
  StronglySorted Z.lt ids ->
  StronglySorted Z.lt (fetched tr) /\ incl (fetched tr) ids.
Proof.
  destruct tr as [| [c ok] tr]; cbn; [discriminate |].
  intros Hcalls Hs. injection Hcalls as Hc Hrest. subst c.
  cbn [fetched]. split.
  - eapply fetched_sorted; eauto.
  - intros j Hj. eapply fetched_incl; eauto.
Qed.

(** C4.  Enumeration is resilient to per-identifier fetch failures: for
    every count and every set [fails] of identifiers whose fetch fails,
    both [fetchAllCampaigns] and [GET /campaigns] run to the end and
    answer with one entry for each identifier of [1..count] outside
    [fails], in order; only the failing identifiers are omitted. *)
Theorem enumeration_omits_only_failing_identifiers
    (contract : Contract) (s : St) (count : Z) (fails : Z -> bool) :
  fst (respond campaignCount s) = Ok count ->
  (forall i s', is_ok (fst (respond (getCampaign i) s')) = negb (fails i)) ->
  (exists out,
      outcome (run respond (Blockchain.fetchAllCampaigns (Some contract)) s) = Ok out
      /\ map rc_id out = filter (fun i => negb (fails i)) (identifiers count))
  /\ (exists l,
         outcome (run respond (Index.get_campaigns (Some contract)) s)
           = Ok (json (Campaigns l))
         /\ map lc_id l = filter (fun i => negb (fails i)) (identifiers count)).
Proof.
  intros Hcount Hfails.
  assert (Hev : forall A (p : Prog A) e i,
             In e (trace (run respond p s)) -> ev_call e = getCampaign i ->
             ev_ok e = negb (fails i)).
  { intros A p e i Hin Hc. destruct (trace_ok p s e Hin) as [s' Hs'].
    rewrite Hs', Hc. apply Hfails. }
  split.
  - destruct (fetchAllCampaigns_run respond contract s Hcount)
      as (out & Hout & Hcalls & Hids).
    exists out. split; [exact Hout |].
    rewrite Hids. apply fetched_after_count; [exact Hcalls | apply Hev].
  - destruct (get_campaigns_run respond contract s Hcount)
      as (l & Hout & Hcalls & Hids).
    exists l. split; [exact Hout |].
    rewrite Hids. apply fetched_after_count; [exact Hcalls | apply Hev].
Qed.

(** C6.  [listAll] reads [count()] exactly once, then issues one fetch
    for each identifier of [1..count], in that order, and the entries it
    yields are those of the fetches that resolved, in the order of the
    fetches: their identifiers are the identifiers of the resolved
    fetches of the run, strictly ascending and within [1..count]; this
    holds for [fetchAllCampaigns] and for [GET /campaigns]. *)
Theorem listAll_reads_count_once_and_fetches_in_order
    (contract : Contract) (s : St) (count : Z) :
  fst (respond campaignCount s) = Ok count ->
  (calls respond (Blockchain.fetchAllCampaigns (Some contract)) s
     = campaignCount :: map getCampaign (identifiers count)
   /\ count_reads (calls respond (Blockchain.fetchAllCampaigns (Some contract)) s) = 1%nat
   /\ exists out,
       outcome (run respond (Blockchain.fetchAllCampaigns (Some contract)) s) = Ok out
       /\ map rc_id out
          = fetched (trace (run respond (Blockchain.fetchAllCampaigns (Some contract)) s))
       /\ StronglySorted Z.lt (map rc_id out)
       /\ incl (map rc_id out) (identifiers count))
  /\ (calls respond (Index.get_campaigns (Some contract)) s
        = campaignCount :: map getCampaign (identifiers count)
      /\ count_reads (calls respond (Index.get_campaigns (Some contract)) s) = 1%nat
      /\ exists l,
          outcome (run respond (Index.get_campaigns (Some contract)) s)
            = Ok (json (Campaigns l))
          /\ map lc_id l
             = fetched (trace (run respond (Index.get_campaigns (Some contract)) s))
          /\ StronglySorted Z.lt (map lc_id l)
          /\ incl (map lc_id l) (identifiers count)).
Proof.
  intro Hcount.
  assert (Hsorted : StronglySorted Z.lt (identifiers count)) by apply upto_sorted.
  split.
  - destruct (fetchAllCampaigns_run respond contract s Hcount)
      as (out & Hout & Hcalls & Hids).
    split; [exact Hcalls |]. split.
    + rewrite Hcalls. unfold count_reads. cbn [filter].
      rewrite count_reads_getCampaign. reflexivity.
    + exists out. split; [exact Hout |]. split; [exact Hids |]. rewrite Hids.
      apply fetched_after_count_sorted; assumption.
  - destruct (get_campaigns_run respond contract s Hcount)
      as (l & Hout & Hcalls & Hids).
    split; [exact Hcalls |]. split.
    + rewrite Hcalls. unfold count_reads. cbn [filter].
      rewrite count_reads_getCampaign. reflexivity.
    + exists l. split; [exact Hout |]. split; [exact Hids |]. rewrite Hids.
      apply fetched_after_count_sorted; assumption.
Qed.

End EnumerationClaims.

(** With [count() = 5] and [fetch(3)] failing, the entries are those of
    1, 2, 4 and 5. *)
Lemma enumeration_omits_only_failing_identifiers_witness :
  (exists out,
      outcome (run Demo.five_with_gap
                 (Blockchain.fetchAllCampaigns (Some EthersContract)) tt) = Ok out
      /\ map rc_id out = [1; 2; 4; 5])
  /\ (exists l,
         outcome (run Demo.five_with_gap
                    (Index.get_campaigns (lib := Demo.lib) (Some EthersContract)) tt)
           = Ok (json (Campaigns l))
         /\ map lc_id l = [1; 2; 4; 5]).
Proof.
  apply (enumeration_omits_only_failing_identifiers (lib := Demo.lib)
           Demo.five_with_gap EthersContract tt (count := 5) (fun i => i =? 3)).
  - reflexivity.
  - intros i s'. cbn. destruct (i =? 3); reflexivity.
Defined.

(** With [count() = 5] and [fetch(3)] failing: one count read, the five
    fetches in order, and the entries of 1, 2, 4 and 5 in that order. *)
Lemma listAll_reads_count_once_and_fetches_in_order_witness :
  (calls Demo.five_with_gap (Blockchain.fetchAllCampaigns (Some EthersContract)) tt
   = [campaignCount; getCampaign 1; getCampaign 2; getCampaign 3; getCampaign 4;
      getCampaign 5]
   /\ exists out,
       outcome (run Demo.five_with_gap
                  (Blockchain.fetchAllCampaigns (Some EthersContract)) tt) = Ok out
       /\ map rc_id out = [1; 2; 4; 5])
  /\ (calls Demo.five_with_gap
        (Index.get_campaigns (lib := Demo.lib) (Some EthersContract)) tt
      = [campaignCount; getCampaign 1; getCampaign 2; getCampaign 3; getCampaign 4;
         getCampaign 5]
      /\ exists l,
          outcome (run Demo.five_with_gap
                     (Index.get_campaigns (lib := Demo.lib) (Some EthersContract)) tt)
          = Ok (json (Campaigns l))
          /\ map lc_id l = [1; 2; 4; 5]).
Proof.
  destruct (listAll_reads_count_once_and_fetches_in_order (lib := Demo.lib)
              Demo.five_with_gap EthersContract tt (count := 5) eq_refl)
    as [(Hcalls & _ & out & Hout & Hids & _) (Hcalls' & _ & l & Hl & Hids' & _)].
  split.
  - split; [exact Hcalls |]. exists out. split; [exact Hout |]. exact Hids.
  - split; [exact Hcalls' |]. exists l. split; [exact Hl |]. exact Hids'.
Defined.

(* ===================================================================== *)
(** ** Symbolic execution of a handler                                    *)
(* ===================================================================== *)

(** Split on the outcome the environment gives to the next call. *)
Ltac split_call :=
  match goal with
  | |- context [?respond ?c ?s] =>
      match type of (respond c s) with
      | (result (Resp _) * _)%type =>
          let x := fresh "x" in
          let e := fresh "e" in
          let s' := fresh "s" in
          destruct (respond c s) as [[x | e] s'] eqn:?;
          cbn [fst snd is_ok] in *
      end
  end.

(** Reduce a run as far as the outcomes known so far allow. *)
Ltac reduce_run :=
  cbn [run bind try_catch await lift attempt Monad.bind ret catch raise
       Monad_Prog MonadExc_Prog outcome final trace fst snd is_ok
       json status_json status body is_success created_id
       map app calls ev_call ev_ok toString].

(* ===================================================================== *)
(** ** [GET /campaigns] and [getAllBlockchainCampaigns] without a ledger  *)
(* ===================================================================== *)

Section ListWithoutLedger.
Context {lib : Lib} {St : Type}.
Variable respond : forall c : Call, St -> result (Resp c) * St.

(** C5, as amended.  [GET /campaigns] of [server/index.js] answers with
    the empty sequence and status 200, never with an error, when the
    contract is not configured (whatever the environment, and without a
    call) and when the count read fails.  The controller
    [getAllBlockchainCampaigns] answers 503 when the contract is not
    configured, again without a call, and 500 when the count read
    fails. *)
Theorem list_campaigns_without_ledger (contract : Contract) (s : St) :
  (run respond (Index.get_campaigns None) s = mkRun (Ok (json (Campaigns []))) s []
   /\ exists r,
       run respond (Controller.getAllBlockchainCampaigns None) s = mkRun (Ok r) s []
       /\ status r = 503)
  /\ (forall e : Error,
        fst (respond campaignCount s) = Err e ->
        outcome (run respond (Index.get_campaigns (Some contract)) s)
        = Ok (json (Campaigns []))
        /\ exists r,
            outcome (run respond (Controller.getAllBlockchainCampaigns (Some contract)) s)
            = Ok r
            /\ status r = 500).
Proof.
  split; [split |].
  - reflexivity.
  - eexists. split; reflexivity.
  - intros e Hcount. split.
    + unfold Index.get_campaigns. reduce_run. rewrite Hcount. reflexivity.
    + unfold Controller.getAllBlockchainCampaigns, Blockchain.fetchAllCampaigns.
      reduce_run. rewrite Hcount. reduce_run. eexists. split; reflexivity.
Qed.

End ListWithoutLedger.

(** On a ledger node that holds campaigns and answers every call, the
    server without a contract lists nothing, and so does the server
    whose count read fails. *)
Lemma list_campaigns_without_ledger_witness :
  let unreachable :=
    Demo.snapshot (Err (error "Error" "network")) (fun _ => Ok (Demo.a_campaign 1)) in
  outcome (run Demo.five_with_gap (Index.get_campaigns (lib := Demo.lib) None) tt)
  = Ok (json (Campaigns []))
  /\ outcome (run unreachable (Index.get_campaigns (lib := Demo.lib) None) tt)
     = Ok (json (Campaigns []))
  /\ outcome (run unreachable
                 (Index.get_campaigns (lib := Demo.lib) (Some EthersContract)) tt)
     = Ok (json (Campaigns [])).
Proof.
  intro unreachable.
  split; [| split].
  - exact (f_equal (@outcome _ _)
             (proj1 (proj1 (list_campaigns_without_ledger (lib := Demo.lib)
                              Demo.five_with_gap EthersContract tt)))).
  - exact (f_equal (@outcome _ _)
             (proj1 (proj1 (list_campaigns_without_ledger (lib := Demo.lib)
                              unreachable EthersContract tt)))).
  - exact (proj1 (proj2 (list_campaigns_without_ledger (lib := Demo.lib)
                           unreachable EthersContract tt)
                    (error "Error" "network") eq_refl)).
Defined.

(** C5, as stated, fails on the controller: without a contract
    [getAllBlockchainCampaigns] answers 503, and when the count read fails
    it answers 500; neither is an empty sequence. *)
Lemma list_campaigns_controller_answers_errors :
  let unreachable :=
    Demo.snapshot (Err (error "Error" "network")) (fun _ => Ok (Demo.a_campaign 1)) in
  exists r503 r500,
    outcome (run unreachable
               (Controller.getAllBlockchainCampaigns (lib := Demo.lib) None) tt)
    = Ok r503
    /\ outcome (run unreachable
                  (Controller.getAllBlockchainCampaigns (lib := Demo.lib)
                     (Some EthersContract)) tt)
       = Ok r500
    /\ r503 = status_json 503 (Failure None (Some "Blockchain not configured") None)
    /\ r500 = status_json 500
                (Failure None (Some "Could not fetch campaigns: network") None)
    /\ answers_empty_sequence r503 = false
    /\ answers_empty_sequence r500 = false.
Proof.
  do 2 eexists. repeat split; reflexivity.
Qed.

(* ===================================================================== *)
(** ** [POST /createCampaign]                                             *)
(* ===================================================================== *)

(** Split on the scrutinee of the innermost stuck [match]. *)
Ltac split_match :=
  match goal with
  | |- context [match ?x with _ => _ end] =>
      lazymatch x with
      | context [match _ with _ => _ end] => fail
      | context [fst _] => fail
      | _ => destruct x eqn:?
      end
  end.

(** Split on a pure expression that may throw. *)
Ltac split_lift :=
  match goal with
  | |- context [lift ?r] => destruct r eqn:?
  end.

(** Run a handler symbolically, splitting on every outcome it inspects. *)
Ltac exec := repeat first [ progress reduce_run | split_lift | split_call | split_match ].

(** Close a branch whose trace does not hold the event assumed of it. *)
Ltac absurd_trace :=
  let H := fresh "H" in
  intro H; cbn in H; exfalso;
  intuition (try discriminate; try congruence); fail.

(** Close a branch in which [Math.random()] would have thrown. *)
Ltac random_returns Hrandom :=
  exfalso;
  match goal with
  | H : ?respond Math_random ?s0 = (Err _, _) |- _ =>
      specialize (Hrandom s0); rewrite H in Hrandom; discriminate
  end.

Section CreateCampaign.
Context {lib : Lib} {St : Type}.
Variable respond : forall c : Call, St -> result (Resp c) * St.

(** C1, as amended.  When the receipt of a confirmed creation carries no
    creation event and the fallback [campaignCount()] read fails,
    [POST /createCampaign] does not fail: it takes a temporary placeholder
    identifier in place of the unresolved one, hands every cache document
    it creates that identifier, and answers 200 with the same identifier.
    The placeholder is the floor of the product of 1000000 and the
    number [Math.random()] returned when it was called right after the
    failed count read. *)
Theorem unresolved_identifier_gets_placeholder
    (contract : Contract) (req_body : CreateBody) (req_user : string) (s : St) :
  let r := run respond (Index.post_createCampaign (Some contract) req_body req_user) s in
  In (mkEvent campaignCount false) (trace r) ->
  (forall s', is_ok (fst (respond Math_random s')) = true) ->
  exists resp id,
    outcome r = Ok resp
    /\ is_success resp = true
    /\ created_id resp = Some id
    /\ (forall d, In d (created_docs (trace r)) -> campaignId d = id)
    /\ In (mkEvent Math_random true) (trace r)
    /\ exists s0 e q,
        fst (respond campaignCount s0) = Err e
        /\ fst (respond Math_random (snd (respond campaignCount s0))) = Ok q
        /\ id = floor (mul (Num q) (of_int 1000000)).
Proof.
  cbv zeta. intros Hfail Hrandom. revert Hfail.
  unfold Index.post_createCampaign, Index.resolve_campaignId.
  exec.
  all: try absurd_trace.
  all: try random_returns Hrandom.
  all: intros _; do 2 eexists.
  all: split; [reflexivity |].
  all: split; [reflexivity |].
  all: split; [reflexivity |].
  all: split; [intros d Hd; cbn in Hd; intuition (subst; reflexivity) |].
  all: split; [cbn; tauto |].
  all: match goal with
       | Hc : respond campaignCount ?s0 = (Err ?e0, ?s1),
         Hr : respond Math_random ?s1 = (Ok ?q0, _) |- _ =>
           exists s0, e0, q0; rewrite Hc; cbn [fst snd]; rewrite Hr;
           repeat split; reflexivity
       end.
Qed.

Lemma BigInt_default :
  BigInt (nullish JUndefined (JNum (of_int 30))) = Ok 30
  /\ BigInt (nullish JNull (JNum (of_int 30))) = Ok 30.
Proof. split; reflexivity. Qed.

(** C10.  When [durationInDays] is omitted ([undefined] or [null]), the
    ledger submission uses a duration of 30 days, in
    [POST /createCampaign] and in the controller
    [createCampaignOnBlockchain]: every [createCampaign] submission the
    request makes carries 30, and a request whose title, description and
    goal are present and whose goal parses makes exactly one submission,
    as its first call, of that title, description and goal with the
    duration 30. *)
Theorem omitted_duration_defaults_to_30
    (contract : Contract) (req_body : CreateBody) (req_user : string) (s : St) :
  durationInDays req_body = JUndefined \/ durationInDays req_body = JNull ->
  (Forall (fun n => n = 30)
     (submitted_durations
        (trace (run respond
                  (Index.post_createCampaign (Some contract) req_body req_user) s)))
   /\ Forall (fun n => n = 30)
        (submitted_durations
           (trace (run respond
                     (Controller.createCampaignOnBlockchain (Some contract)
                        req_body req_user) s))))
  /\ (forall goal_s goalWei,
        missing_fields req_body = false ->
        toString (body_goal req_body) = Ok goal_s ->
        parseEther goal_s = Ok goalWei ->
        let submission :=
          createCampaign (body_title req_body) (body_description req_body) goalWei 30 in
        (hd_error (calls respond
                     (Index.post_createCampaign (Some contract) req_body req_user) s)
         = Some submission
         /\ filter is_submission
              (calls respond
                 (Index.post_createCampaign (Some contract) req_body req_user) s)
            = [submission])
        /\ (hd_error (calls respond
                        (Controller.createCampaignOnBlockchain (Some contract)
                           req_body req_user) s)
            = Some submission
            /\ filter is_submission
                 (calls respond
                    (Controller.createCampaignOnBlockchain (Some contract)
                       req_body req_user) s)
               = [submission])).
Proof.
  intro Homitted.
  assert (Hd : BigInt (nullish (durationInDays req_body) (JNum (of_int 30))) = Ok 30)
    by (destruct Homitted as [-> | ->]; apply BigInt_default).
  split; [split |].
  - unfold Index.post_createCampaign, Index.resolve_campaignId.
    rewrite Hd. exec.
    all: cbn [submitted_durations]; repeat constructor.
  - unfold Controller.createCampaignOnBlockchain.
    rewrite Hd. exec.
    all: cbn [submitted_durations]; repeat constructor.
  - intros goal_s goalWei Hvalid Hs Hp. cbv zeta.
    unfold missing_fields in Hvalid.
    apply orb_false_iff in Hvalid as [Hvalid Hgoal].
    apply orb_false_iff in Hvalid as [Htitle Hdescription].
    split.
    + unfold calls, Index.post_createCampaign, Index.resolve_campaignId.
      rewrite Htitle, Hdescription, Hgoal, Hs, Hd. cbn [orb]. reduce_run.
      rewrite Hp. exec.
      all: split; reflexivity.
    + unfold calls, Controller.createCampaignOnBlockchain.
      rewrite Htitle, Hdescription, Hs, Hd. cbn [orb].
      destruct (body_goal req_body); try discriminate Hgoal.
      all: reduce_run; rewrite Hp; exec.
      all: split; reflexivity.
Qed.




(** The controller wraps its one cache call in a [try] as well: once the
    write is confirmed and the count is read, it answers 200. *)
Lemma controller_cache_failure_not_propagated
    (contract : Contract) (req_body : CreateBody) (req_user : string)
    (s : St) (tx : Tx) :
  In (mkEvent (wait tx) true)
     (trace (run respond
               (Controller.createCampaignOnBlockchain (Some contract)
                  req_body req_user) s)) ->
  In (mkEvent campaignCount true)
     (trace (run respond
               (Controller.createCampaignOnBlockchain (Some contract)
                  req_body req_user) s)) ->
  exists id,
    outcome (run respond
               (Controller.createCampaignOnBlockchain (Some contract)
                  req_body req_user) s)
    = Ok (json (Created "Campaign created" (hash tx) None id)).
Proof.
  unfold Controller.createCampaignOnBlockchain. exec.
  all: intros H1 H2; cbn in H1, H2;
       try (exfalso; intuition (try discriminate; try congruence); fail).
  all: repeat (destruct H1 as [H1 | H1]; try discriminate); try contradiction;
       injection H1 as <-; eexists; reflexivity.
Qed.

End CreateCampaign.

(** On a ledger whose receipt carries no creation event and whose count
    read fails, the creation still answers 200, with one identifier for
    the response and for the document. *)
Lemma unresolved_identifier_gets_placeholder_witness :
  exists resp id,
    outcome Demo.silent_run = Ok resp
    /\ is_success resp = true
    /\ created_id resp = Some id
    /\ (forall d, In d (created_docs (trace Demo.silent_run)) -> campaignId d = id)
    /\ In (mkEvent Math_random true) (trace Demo.silent_run)
    /\ exists s0 e q,
        fst (respond_world (L := Demo.silent_ledger) campaignCount s0) = Err e
        /\ fst (respond_world (L := Demo.silent_ledger) Math_random
                  (snd (respond_world (L := Demo.silent_ledger) campaignCount s0)))
           = Ok q
        /\ id = floor (mul (Num q) (of_int 1000000)).
Proof.
  apply (unresolved_identifier_gets_placeholder (lib := Demo.lib)
           (respond_world (L := Demo.silent_ledger))
           EthersContract Demo.request "u1" (Demo.silent_world [] 1 None)).
  - vm_compute. auto 10.
  - intro s'. reflexivity.
Defined.

(** C1, as stated, fails: with no creation event in the receipt and the
    [campaignCount()] read failing, the request does not fail with
    IdentifierUnresolved; it answers 200 with the identifier 500000 drawn
    from [Math.random() = 1/2], and the cache store records a document
    under that identifier. *)
Lemma unresolved_identifier_is_recorded_and_returned :
  Index.scan_logs [NoFragment] = None
  /\ In (mkEvent campaignCount false) (trace Demo.silent_run)
  /\ outcome Demo.silent_run
     = Ok (json (Created "Campaign created!" "0xabc" (Some 7) (of_int 500000)))
  /\ map campaignId (db (final Demo.silent_run)) = [of_int 500000].
Proof.
  repeat split; try reflexivity. vm_compute. auto 10.
Qed.

(** The product is rounded to a double before [Math.floor] is taken: for
    the draw 10623991520967 / 2^52 (the double 0.002359) the exact product
    lies below 2359 and the placeholder is 2359. *)
Lemma placeholder_rounds_the_product :
  floor (mul (Num (10623991520967 # 4503599627370496)) (of_int 1000000)) = of_int 2359
  /\ Qfloor ((10623991520967 # 4503599627370496) * 1000000) = 2358
  /\ floor (mul (Num (1 # 2)) (of_int 1000000)) = of_int 500000.
Proof. vm_compute. repeat split. Qed.

(** The request of the example omits [durationInDays]; both handlers
    submit it once, as their first call, with 30 days. *)
Lemma omitted_duration_defaults_to_30_witness :
  let w := Demo.world Demo.four_campaigns [] 1 None in
  let submission := createCampaign (JStr "A") (JStr "d") 1000 30 in
  (hd_error (calls (respond_world (L := SpecLedger.model))
               (Index.post_createCampaign (lib := Demo.lib) (Some EthersContract)
                  Demo.request "u1") w)
   = Some submission
   /\ filter is_submission
        (calls (respond_world (L := SpecLedger.model))
           (Index.post_createCampaign (lib := Demo.lib) (Some EthersContract)
              Demo.request "u1") w)
      = [submission])
  /\ (hd_error (calls (respond_world (L := SpecLedger.model))
                  (Controller.createCampaignOnBlockchain (lib := Demo.lib)
                     (Some EthersContract) Demo.request "u1") w)
      = Some submission
      /\ filter is_submission
           (calls (respond_world (L := SpecLedger.model))
              (Controller.createCampaignOnBlockchain (lib := Demo.lib)
                 (Some EthersContract) Demo.request "u1") w)
         = [submission]).
Proof.
  cbv zeta.
  apply (proj2 (omitted_duration_defaults_to_30 (lib := Demo.lib)
                  (respond_world (L := SpecLedger.model))
                  EthersContract Demo.request "u1"
                  (Demo.world Demo.four_campaigns [] 1 None)
                  (or_introl eq_refl))
               "1000" 1000); reflexivity.
Defined.

(** The request of the example does reach the ledger, with 30 days. *)
Lemma omitted_duration_example :
  calls (respond_world (L := SpecLedger.model))
    (Index.post_createCampaign (lib := Demo.lib) (Some EthersContract) Demo.request "u1")
    (Demo.world Demo.four_campaigns [] 1 None)
  = [createCampaign (JStr "A") (JStr "d") 1000 30; wait (mkTx "0x0");
     mongoose_readyState; import_Campaign;
     Campaign_create (mkDoc (JStr "A") (JStr "d") (of_int 1000) (Some (of_int 0))
                            "u1" "0x0" (of_int 5))].
Proof. reflexivity. Qed.


(** The same for a donation whose cache update fails. *)
Lemma donation_with_cache_down :
  let r := run (respond_world (L := Demo.silent_ledger))
               (Index.post_donate (lib := Demo.lib) (Some EthersContract) Demo.donation)
               (Demo.silent_world [] 1 (Some Demo.cache_down)) in
  outcome r = Ok (json (Donated "Donation successful!" "0xdef"))
  /\ In (mkEvent import_Campaign true) (trace r).
Proof.
  split; [reflexivity | vm_compute; auto 10].
Qed.

(** By contrast [POST /sync-campaign] does let a cache failure through:
    its update is not wrapped in a [try] of its own. *)
Lemma sync_with_cache_down :
  outcome (run (respond_world (L := SpecLedger.model))
             (Index.post_sync_campaign (lib := Demo.lib) (Some EthersContract) (JStr "1"))
             (Demo.world Demo.four_campaigns [] 1 (Some Demo.cache_down)))
  = Ok (status_json 500 (Failure (Some false) (Some "connection refused") None)).
Proof. reflexivity. Qed.



(* ===================================================================== *)
(** ** [POST /sync-campaign]: reconciliation                              *)
(* ===================================================================== *)

(** Updating twice with the same amount is updating once. *)
Lemma findOneAndUpdate_idempotent (docs : list CampaignDoc) (id raised : number) :
  findOneAndUpdate (snd (findOneAndUpdate docs id raised)) id raised
  = findOneAndUpdate docs id raised.
Proof.
  induction docs as [| d docs IH]; [reflexivity |].
  cbn [findOneAndUpdate].
  destruct (number_eqb (campaignId d) id) eqn:Hd.
  - cbn. rewrite Hd. reflexivity.
  - destruct (findOneAndUpdate docs id raised) as [found rest] eqn:E.
    cbn in *. rewrite Hd, IH. reflexivity.
Qed.

(** After an update that found a document, the first document of that
    identifier holds the amount. *)
Lemma findOneAndUpdate_stores (docs : list CampaignDoc) (id raised : number) :
  forall d, fst (findOneAndUpdate docs id raised) = Some d ->
            raisedEth d = Some raised
            /\ number_eqb (campaignId d) id = true
            /\ In d (snd (findOneAndUpdate docs id raised)).
Proof.
  induction docs as [| d0 docs IH]; intros d Hfound; [discriminate |].
  cbn [findOneAndUpdate] in *.
  destruct (number_eqb (campaignId d0) id) eqn:Hd.
  - cbn in *. injection Hfound as <-. cbn. auto.
  - destruct (findOneAndUpdate docs id raised) as [found rest] eqn:E.
    cbn in *. destruct (IH d Hfound) as (? & ? & ?). auto.
Qed.

Section Reconciliation.
Context {lib : Lib}.
Variable L : LedgerModel.

Ltac world_step :=
  cbn [run bind try_catch await lift attempt Monad.bind ret catch raise
       Monad_Prog MonadExc_Prog outcome final trace fst snd is_ok
       respond_world with_db with_chain negb
       chain db db_readyState db_fault random];
  try unfold cache_op.

(** A second [POST /sync-campaign] right after a first one answers as
    the first did and leaves the cache store as the first left it;
    neither changes the ledger. *)
Lemma sync_campaign_twice
    (contract : option Contract) (campaignId : value) (w : World L) :
  let r1 := run (respond_world (L := L)) (Index.post_sync_campaign contract campaignId) w in
  let r2 := run (respond_world (L := L)) (Index.post_sync_campaign contract campaignId)
                (final r1) in
  outcome r2 = outcome r1
  /\ db (final r2) = db (final r1)
  /\ chain (final r1) = chain w
  /\ chain (final r2) = chain w.
Proof.
  unfold Index.post_sync_campaign.
  destruct contract as [c |]; [| cbn; auto].
  destruct (truthy campaignId); [| cbn; auto].
  cbn [negb].
  destruct (BigInt campaignId) as [id | e] eqn:Hid; [| cbn; auto].
  world_step.
  destruct (led_getCampaign L (chain w) id) as [result | e] eqn:Hget;
    [| repeat (world_step; rewrite ?Hget); cbn; auto].
  world_step.
  destruct (db_readyState w =? 1) eqn:Hready;
    [| repeat (world_step; rewrite ?Hget, ?Hready); cbn; auto].
  world_step.
  destruct (db_fault w) as [fault |] eqn:Hfault;
    [repeat (world_step; rewrite ?Hget, ?Hready, ?Hfault); cbn; auto |].
  destruct (Number campaignId) as [| q] eqn:Hnum;
    [repeat (world_step; rewrite ?Hget, ?Hready, ?Hfault); cbn; auto |].
  pose proof (findOneAndUpdate_idempotent (db w) (Num q)
                (parseFloat (formatEther (amountCollected result)))) as Hidem.
  destruct (findOneAndUpdate (db w) (Num q)
              (parseFloat (formatEther (amountCollected result))))
    as [found docs] eqn:Hupd.
  cbn [snd] in Hidem.
  destruct found as [d |];
    repeat (world_step; rewrite ?Hget, ?Hready, ?Hfault, ?Hidem); cbn; auto.
Qed.

(** What a reconciliation stores: the amount just read from the ledger,
    whatever the document held before. *)
Lemma reconcileAmount_overwrites
    (contract : Contract) (campaignId : value) (w : World L)
    (id : Z) (q : Q) (result : CampaignTuple) (d : CampaignDoc) :
  truthy campaignId = true ->
  BigInt campaignId = Ok id ->
  Number campaignId = Num q ->
  led_getCampaign L (chain w) id = Ok result ->
  db_readyState w = 1 ->
  db_fault w = None ->
  fst (findOneAndUpdate (db w) (Num q)
         (parseFloat (formatEther (amountCollected result)))) = Some d ->
  let r := run (respond_world (L := L))
               (Index.post_sync_campaign (Some contract) campaignId) w in
  outcome r = Ok (json (Synced (parseFloat (formatEther (amountCollected result))) None))
  /\ raisedEth d = Some (parseFloat (formatEther (amountCollected result)))
  /\ In d (db (final r)).
Proof.
  intros Htruthy Hid Hnum Hget Hready Hfault Hfound.
  destruct (findOneAndUpdate_stores _ _ _ Hfound) as (Hraised & _ & Hin).
  unfold Index.post_sync_campaign. cbv zeta. rewrite Htruthy, Hid.
  repeat (world_step; rewrite ?Hget, ?Hready, ?Hfault, ?Hnum).
  change (1 =? 1) with true. 
  repeat (world_step; rewrite ?Hget, ?Hready, ?Hfault, ?Hnum).
  destruct (findOneAndUpdate (db w) (Num q)
              (parseFloat (formatEther (amountCollected result))))
    as [found docs] eqn:Hupd.
  cbn [fst snd] in *. subst found. world_step. auto.
Qed.

(** The cache store a reconciliation leaves: the one it found, with the
    first document of that identifier holding the amount just read. *)
Lemma reconcileAmount_final_db
    (contract : Contract) (campaignId : value) (w : World L)
    (id : Z) (q : Q) (result : CampaignTuple) :
  truthy campaignId = true ->
  BigInt campaignId = Ok id ->
  Number campaignId = Num q ->
  led_getCampaign L (chain w) id = Ok result ->
  db_readyState w = 1 ->
  db_fault w = None ->
  db (final (run (respond_world (L := L))
               (Index.post_sync_campaign (Some contract) campaignId) w))
  = snd (findOneAndUpdate (db w) (Num q)
           (parseFloat (formatEther (amountCollected result)))).
Proof.
  intros Htruthy Hid Hnum Hget Hready Hfault.
  unfold Index.post_sync_campaign. cbv zeta. rewrite Htruthy, Hid.
  repeat (world_step; rewrite ?Hget, ?Hready, ?Hfault, ?Hnum).
  change (1 =? 1) with true.
  repeat (world_step; rewrite ?Hget, ?Hready, ?Hfault, ?Hnum).
  destruct (findOneAndUpdate (db w) (Num q)
              (parseFloat (formatEther (amountCollected result))))
    as [found docs] eqn:Hupd.
  destruct found as [d |]; world_step; reflexivity.
Qed.

(** C7.  [reconcileAmount] ([POST /sync-campaign]) is idempotent: a
    second call right after a first one, the ledger unchanged in between,
    answers exactly as the first did and leaves the cache store as the
    first left it; neither call changes the ledger.  It is so because
    each call overwrites the cached value with the one re-read from the
    ledger: when the ledger read resolves with [result], the store is
    connected and holds a document of that identifier, both calls answer
    with the amount of [result], the first call leaves the store with
    that document updated to that amount, whatever it held before, and
    the second call finds and leaves it so. *)
Theorem reconcileAmount_idempotent
    (contract : option Contract) (campaignId : value) (w : World L) :
  let r1 := run (respond_world (L := L)) (Index.post_sync_campaign contract campaignId) w in
  let r2 := run (respond_world (L := L)) (Index.post_sync_campaign contract campaignId)
                (final r1) in
  (outcome r2 = outcome r1
   /\ db (final r2) = db (final r1)
   /\ chain (final r1) = chain w
   /\ chain (final r2) = chain w)
  /\ (forall (id : Z) (q : Q) (result : CampaignTuple) (d : CampaignDoc),
        contract <> None ->
        truthy campaignId = true ->
        BigInt campaignId = Ok id ->
        Number campaignId = Num q ->
        led_getCampaign L (chain w) id = Ok result ->
        db_readyState w = 1 ->
        db_fault w = None ->
        let amount := parseFloat (formatEther (amountCollected result)) in
        fst (findOneAndUpdate (db w) (Num q) amount) = Some d ->
        outcome r1 = Ok (json (Synced amount None))
        /\ outcome r2 = Ok (json (Synced amount None))
        /\ db (final r1) = snd (findOneAndUpdate (db w) (Num q) amount)
        /\ db (final r2) = snd (findOneAndUpdate (db w) (Num q) amount)
        /\ raisedEth d = Some amount
        /\ In d (db (final r1))
        /\ In d (db (final r2))).
Proof.
  cbv zeta.
  pose proof (sync_campaign_twice contract campaignId w) as Htwice.
  cbv zeta in Htwice. split; [exact Htwice |].
  intros id q result d Hcontract Htruthy Hid Hnum Hget Hready Hfault Hfound.
  destruct contract as [c |]; [| contradiction].
  destruct Htwice as (Hout & Hdb & _ & _).
  destruct (reconcileAmount_overwrites c campaignId w Htruthy Hid Hnum Hget
              Hready Hfault Hfound) as (Hanswer & Hraised & Hin).
  cbv zeta in Hanswer, Hin.
  pose proof (reconcileAmount_final_db c campaignId w Htruthy Hid Hnum Hget
                Hready Hfault) as Hfinal.
  rewrite Hout, Hdb.
  repeat split; assumption.
Qed.

End Reconciliation.

(** A campaign is created and recorded with [raisedEth = 0]; a donation
    of 100 then reaches the ledger through the controller, which does not
    touch the cache store, so the cached amount is stale.  Two
    reconciliations in a row both answer 100, and the document holds 100
    after the first as after the second. *)
Lemma reconcileAmount_idempotent_witness :
  let w0 := Demo.world Demo.four_campaigns [] 1 None in
  let created := run (respond_world (L := SpecLedger.model))
                     (Index.post_createCampaign (lib := Demo.lib) (Some EthersContract)
                        Demo.request "u1") w0 in
  let funded := run (respond_world (L := SpecLedger.model))
                    (donateToCampaign (lib := Demo.lib) (Some EthersContract)
                       (mkDonateBody (JStr "5") (JStr "100")))
                    (final created) in
  let sync := Index.post_sync_campaign (lib := Demo.lib) (Some EthersContract) (JStr "5") in
  let r1 := run (respond_world (L := SpecLedger.model)) sync (final funded) in
  let r2 := run (respond_world (L := SpecLedger.model)) sync (final r1) in
  map raisedEth (db (final funded)) = [Some (of_int 0)]
  /\ (outcome r2 = outcome r1
      /\ db (final r2) = db (final r1)
      /\ chain (final r1) = chain (final funded)
      /\ chain (final r2) = chain (final funded))
  /\ outcome r1 = Ok (json (Synced (of_int 100) None))
  /\ outcome r2 = Ok (json (Synced (of_int 100) None))
  /\ map raisedEth (db (final r1)) = [Some (of_int 100)]
  /\ map raisedEth (db (final r2)) = [Some (of_int 100)].
Proof.
  intros w0 created funded sync r1 r2.
  destruct (reconcileAmount_idempotent (lib := Demo.lib) (L := SpecLedger.model)
              (Some EthersContract) (JStr "5") (final funded))
    as [Htwice Hover].
  cbv zeta in Htwice, Hover.
  split; [reflexivity |]. split; [exact Htwice |].
  edestruct Hover as (H1 & H2 & H3 & H4 & _);
    [discriminate | reflexivity | reflexivity | reflexivity | reflexivity
     | reflexivity | reflexivity | reflexivity |].
  split; [exact H1 |]. split; [exact H2 |].
  split; [unfold r1, sync; rewrite H3 | unfold r2, r1, sync; rewrite H4]; reflexivity.
Defined.

(* ===================================================================== *)
(** ** Identifier conventions: resolution and [GET /campaign/:id]         *)
(* ===================================================================== *)

Lemma lt_of_int (a b : Z) : lt (of_int a) (of_int b) = (a <? b).
Proof.
  unfold lt, of_int, Qle_bool. cbn. rewrite !Z.mul_1_r.
  rewrite Z.ltb_antisym. reflexivity.
Qed.

Lemma ge_of_int (a b : Z) : ge (of_int a) (of_int b) = (b <=? a).
Proof.
  unfold ge, of_int, Qle_bool. cbn. rewrite !Z.mul_1_r. reflexivity.
Qed.

Lemma BigInt_of_int (z : Z) : BigInt_of_number (of_int z) = Ok z.
Proof.
  unfold BigInt_of_number, of_int.
  assert (Hf : Qfloor (inject_Z z) = z) by apply Qfloor_Z.
  rewrite Hf.
  assert (Hq : Qeq_bool (inject_Z z) (inject_Z z) = true)
    by (apply Qeq_bool_iff; reflexivity).
  rewrite Hq. reflexivity.
Qed.

Section Bounds.
Context {lib : Lib} {St : Type}.
Variable respond : forall c : Call, St -> result (Resp c) * St.

(** [GET /campaign/:id] of [server/index.js] answers 404 exactly when the
    identifier exceeds the count; every other identifier, 0 and the
    negative ones included, is passed to [getCampaign]. *)
Lemma index_get_campaign_404_iff
    (contract : Contract) (params_id : string) (id total : Z) (s : St) :
  StringToBigInt params_id = Some id ->
  fst (respond campaignCount s) = Ok total ->
  exists resp,
    outcome (run respond (Index.get_campaign (Some contract) params_id) s) = Ok resp
    /\ (status resp = 404 <-> total < id)
    /\ (id <= total ->
        calls respond (Index.get_campaign (Some contract) params_id) s
        = [campaignCount; getCampaign id]).
Proof.
  intros Hid Hcount.
  unfold calls, Index.get_campaign, BigInt_of_string. rewrite Hid.
  reduce_run. rewrite Hcount. reduce_run.
  destruct (id >? total) eqn:Hgt.
  - reduce_run. eexists. split; [reflexivity |].
    apply Z.gtb_lt in Hgt. split; [cbn; tauto | lia].
  - assert (id <= total) by (rewrite Z.gtb_ltb in Hgt; apply Z.ltb_ge in Hgt; lia).
    reduce_run.
    destruct (respond (getCampaign id) (snd (respond campaignCount s)))
      as [[result | e] s'];
      reduce_run; eexists; (split; [reflexivity |]);
      (split; [cbn; split; [discriminate | lia] | reflexivity]).
Qed.

(** The controller [getCampaignFromBlockchain] answers 404 exactly when
    the identifier is negative or at least the count. *)
Lemma controller_get_campaign_404_iff
    (contract : Contract) (params_id : string) (id total : Z) (s : St) :
  StringToNumber params_id = of_int id ->
  fst (respond campaignCount s) = Ok total ->
  exists resp,
    outcome (run respond (Controller.getCampaignFromBlockchain (Some contract) params_id) s)
    = Ok resp
    /\ (status resp = 404 <-> id < 0 \/ total <= id).
Proof.
  intros Hid Hcount.
  unfold Controller.getCampaignFromBlockchain. rewrite Hid.
  reduce_run. rewrite Hcount. reduce_run.
  cbn [isNaN of_int orb]. fold (of_int id). fold (of_int total). fold (of_int 0).
  rewrite lt_of_int, ge_of_int.
  destruct ((id <? 0) || (total <=? id)) eqn:Hout.
  - reduce_run. eexists. split; [reflexivity |].
    apply orb_true_iff in Hout. rewrite Z.ltb_lt, Z.leb_le in Hout. cbn. tauto.
  - apply orb_false_iff in Hout. rewrite Z.ltb_ge, Z.leb_gt in Hout.
    rewrite BigInt_of_int. reduce_run.
    destruct (respond (getCampaign id) (snd (respond campaignCount s)))
      as [[result | e] s'];
      reduce_run; eexists; (split; [reflexivity |]);
      cbn; (split; [discriminate | lia]).
Qed.

End Bounds.

(** C3.  The 404 of get-one-campaign does not follow [1..count]: for
    every ledger, [GET /campaign/:id] of [server/index.js] answers 404
    exactly when [id > count], so never for [id = 0]; the controller
    [getCampaignFromBlockchain] answers 404 exactly when [id < 0] or
    [id >= count], so for [id = count] and not for [id = 0]. *)
Theorem get_campaign_404_bounds
    {lib : Lib} {St : Type} (respond : forall c : Call, St -> result (Resp c) * St)
    (contract : Contract) (params_id : string) (id total : Z) (s : St) :
  StringToBigInt params_id = Some id ->
  StringToNumber params_id = of_int id ->
  fst (respond campaignCount s) = Ok total ->
  (exists resp,
      outcome (run respond (Index.get_campaign (Some contract) params_id) s) = Ok resp
      /\ (status resp = 404 <-> total < id))
  /\ (exists resp,
         outcome (run respond
                    (Controller.getCampaignFromBlockchain (Some contract) params_id) s)
         = Ok resp
         /\ (status resp = 404 <-> id < 0 \/ total <= id)).
Proof.
  intros Hbig Hnum Hcount. split.
  - destruct (index_get_campaign_404_iff respond contract params_id s Hbig Hcount)
      as (resp & Hout & H404 & _).
    exists resp. auto.
  - exact (controller_get_campaign_404_iff respond contract params_id s Hnum Hcount).
Qed.

(** The identifier 0 on a ledger of four campaigns. *)
Lemma get_campaign_404_bounds_witness :
  let w := Demo.world Demo.four_campaigns [] 1 None in
  (exists resp,
      outcome (run (respond_world (L := SpecLedger.model))
                 (Index.get_campaign (lib := Demo.lib) (Some EthersContract) "0") w)
      = Ok resp
      /\ (status resp = 404 <-> 4 < 0))
  /\ (exists resp,
         outcome (run (respond_world (L := SpecLedger.model))
                    (Controller.getCampaignFromBlockchain (lib := Demo.lib)
                       (Some EthersContract) "0") w)
         = Ok resp
         /\ (status resp = 404 <-> 0 < 0 \/ 4 <= 0)).
Proof.
  apply (get_campaign_404_bounds (lib := Demo.lib)
           (respond_world (L := SpecLedger.model)) EthersContract "0" (id := 0)
           (total := 4) (Demo.world Demo.four_campaigns [] 1 None));
    reflexivity.
Defined.

(** On the ledger of the specification holding four campaigns,
    [GET /campaign/0] of [server/index.js] answers 500, not 404; the
    controller answers 404 for the identifier 4, which is within [1..4],
    and 500 for 0. *)
Lemma get_campaign_bounds_on_four_campaigns :
  let w := Demo.world Demo.four_campaigns [] 1 None in
  let index := fun id =>
    outcome (run (respond_world (L := SpecLedger.model))
               (Index.get_campaign (lib := Demo.lib) (Some EthersContract) id) w) in
  let controller := fun id =>
    outcome (run (respond_world (L := SpecLedger.model))
               (Controller.getCampaignFromBlockchain (lib := Demo.lib)
                  (Some EthersContract) id) w) in
  index "0" = Ok (status_json 500 (Failure None (Some "Could not fetch campaign") None))
  /\ index "5" = Ok (status_json 404 (Failure None (Some "Not found") None))
  /\ (exists d, index "4" = Ok (json (Details d)) /\ cd_id d = of_int 4)
  /\ controller "4" = Ok (status_json 404 (Failure None (Some "Not found") None))
  /\ controller "0"
     = Ok (status_json 500
             (Failure None (Some "Could not fetch campaign: no such campaign") None))
  /\ (exists d, controller "3" = Ok (json (Details d)) /\ cd_id d = of_int 3).
Proof.
  cbv zeta. repeat split; try reflexivity; eexists; split; reflexivity.
Qed.

(** *** Identifier resolution on the ledger of the specification *)

Section Resolution.
Context {lib : Lib}.

(** After a creation on a ledger of [count] campaigns, the event of the
    receipt and the [campaignCount()] read that [POST /createCampaign]
    falls back to both give [count + 1]. *)
Lemma index_resolution_paths_agree
    (s s' : SpecLedger.State) (t d : value) (g n : Z) (tx : Tx)
    (w : World SpecLedger.model) :
  SpecLedger.createCampaign s t d g n = (Ok tx, s') ->
  chain w = s' ->
  exists receipt,
    SpecLedger.wait s' tx = Ok receipt
    /\ outcome (run (respond_world (L := SpecLedger.model))
                  (Index.resolve_campaignId receipt) w)
       = Ok (of_int (SpecLedger.count s + 1))
    /\ outcome (run (respond_world (L := SpecLedger.model))
                  (Index.resolve_campaignId (mkReceipt [] (blockNumber receipt))) w)
       = Ok (of_int (SpecLedger.count s + 1)).
Proof.
  intros Hcreate Hchain.
  unfold SpecLedger.createCampaign in Hcreate.
  destruct t as [| | | | t']; try discriminate.
  destruct d as [| | | | d']; try discriminate.
  injection Hcreate as Htx Hs'. subst tx s'.
  eexists. split.
  - unfold SpecLedger.wait. cbn [hash SpecLedger.receipts SpecLedger.lookup].
    rewrite String.eqb_refl. reflexivity.
  - split.
    + reflexivity.
    + unfold Index.resolve_campaignId. cbn [logs Index.scan_logs].
      reduce_run. cbn [respond_world led_campaignCount SpecLedger.model fst snd].
      rewrite Hchain. unfold SpecLedger.campaignCount, SpecLedger.count.
      cbn [SpecLedger.campaigns]. rewrite length_app. cbn [List.length].
      reduce_run. do 2 f_equal. lia.
Qed.

End Resolution.

(** C2.  On a ledger of four campaigns, the creation event carries the
    identifier 5 and the [campaignCount()] read after confirmation gives
    5, so both paths of [POST /createCampaign] resolve 5; the controller
    [createCampaignOnBlockchain] subtracts one from that read and answers
    with the identifier 4. *)
Theorem resolution_after_four_campaigns :
  let w := Demo.world Demo.four_campaigns [] 1 None in
  let index := run (respond_world (L := SpecLedger.model))
                   (Index.post_createCampaign (lib := Demo.lib) (Some EthersContract)
                      Demo.request "u1") w in
  let controller := run (respond_world (L := SpecLedger.model))
                        (Controller.createCampaignOnBlockchain (lib := Demo.lib)
                           (Some EthersContract) Demo.request "u1") w in
  SpecLedger.campaignCount Demo.four_campaigns = Ok 4
  /\ (exists resp, outcome index = Ok resp /\ created_id resp = Some (of_int 5))
  /\ outcome (run (respond_world (L := SpecLedger.model))
                (Index.resolve_campaignId (mkReceipt [] 1)) (final index))
     = Ok (of_int 5)
  /\ SpecLedger.campaignCount (chain (final controller)) = Ok 5
  /\ (exists resp, outcome controller = Ok resp /\ created_id resp = Some (of_int 4)).
Proof.
  cbv zeta. repeat split; try reflexivity; eexists; split; reflexivity.
Qed.

(* ===================================================================== *)
(** ** Further properties: identifier resolution                          *)
(* ===================================================================== *)

Lemma scan_logs_skips (pre rest : list Log) :
  forallb (fun l => negb (is_created l)) pre = true ->
  Index.scan_logs (pre ++ rest) = Index.scan_logs rest.
Proof.
  induction pre as [| log pre IH]; intro Hpre; [reflexivity |].
  cbn [forallb] in Hpre. apply andb_true_iff in Hpre. destruct Hpre as [Hlog Hpre].
  cbn [app Index.scan_logs]. unfold is_created in Hlog.
  destruct (parseLog log) as [[d |] | e]; auto.
  destruct (String.eqb (name d) "CampaignCreated"); [discriminate | auto].
Qed.

(** X1.  The scan of the receipt logs yields the [campaignId] of the
    first log that parses to a [CampaignCreated] event, whatever comes
    before it (logs that do not parse, that parse to nothing, or that are
    other events) and after it; it finds nothing exactly when no log is
    such an event. *)
Theorem scan_logs_first_creation_event
    (pre post : list Log) (d : LogDescription) :
  forallb (fun l => negb (is_created l)) pre = true ->
  name d = "CampaignCreated" ->
  Index.scan_logs (pre ++ Described d :: post)
  = Some (match args_campaignId d with Some n => of_int n | None => NaN end)
  /\ Index.scan_logs pre = None
  /\ (forall ls, Index.scan_logs ls = None
                 <-> forallb (fun l => negb (is_created l)) ls = true).
Proof.
  intros Hpre Hname. split; [| split].
  - rewrite scan_logs_skips by exact Hpre.
    cbn [Index.scan_logs parseLog]. rewrite Hname. reflexivity.
  - rewrite <- (app_nil_r pre). rewrite scan_logs_skips by exact Hpre. reflexivity.
  - intro ls. induction ls as [| log ls IH]; [cbn; split; reflexivity |].
    cbn [Index.scan_logs forallb]. unfold is_created.
    destruct (parseLog log) as [[d' |] | e]; cbn [negb andb]; try exact IH.
    destruct (String.eqb (name d') "CampaignCreated"); cbn [negb andb]; [| exact IH].
    split; discriminate.
Qed.

Lemma scan_logs_first_creation_event_witness :
  Index.scan_logs
    ([Unparsable (error "Error" "no matching event"); NoFragment;
      Described (mkLogDescription "Transfer" (Some 9))]
     ++ Described (mkLogDescription "CampaignCreated" (Some 5))
     :: [Described (mkLogDescription "CampaignCreated" (Some 6))])
  = Some (of_int 5).
Proof.
  apply (scan_logs_first_creation_event
           [Unparsable (error "Error" "no matching event"); NoFragment;
            Described (mkLogDescription "Transfer" (Some 9))]
           [Described (mkLogDescription "CampaignCreated" (Some 6))]
           (mkLogDescription "CampaignCreated" (Some 5)));
    reflexivity.
Defined.

Section ResolutionCalls.
Context {lib : Lib} {St : Type}.
Variable respond : forall c : Call, St -> result (Resp c) * St.

(** X2.  The resolution of the identifier makes no call at all when the
    receipt carries a creation event; otherwise it reads [campaignCount]
    once and returns it, and it calls [Math.random] only after that read
    failed: its calls are then that read and one draw, and it resolves
    exactly when the draw returns. *)
Theorem resolution_calls (receipt : Receipt) (s : St) :
  let r := run respond (Index.resolve_campaignId receipt) s in
  match Index.scan_logs (logs receipt) with
  | Some id => r = mkRun (Ok id) s []
  | None =>
      match fst (respond campaignCount s) with
      | Ok count =>
          outcome r = Ok (of_int count)
          /\ trace r = [mkEvent campaignCount true]
      | Err _ =>
          map ev_call (trace r) = [campaignCount; Math_random]
          /\ is_ok (outcome r)
             = is_ok (fst (respond Math_random (snd (respond campaignCount s))))
      end
  end.
Proof.
  cbv zeta. unfold Index.resolve_campaignId.
  destruct (Index.scan_logs (logs receipt)) as [id |]; [reflexivity |].
  reduce_run.
  destruct (respond campaignCount s) as [[count | e] s1]; reduce_run.
  - auto.
  - destruct (respond Math_random s1) as [[q' | e'] s2]; reduce_run;
      split; reflexivity.
Qed.

End ResolutionCalls.

(* ===================================================================== *)
(** ** Further properties: the write handlers                             *)
(* ===================================================================== *)

(** Find an event in a concrete trace. *)
Ltac find_event := cbn [In]; solve [repeat first [left; reflexivity | right]].

(** Reduce the notions of the statements on a concrete run. *)
Ltac reduce_notions :=
  cbn [answered outcome trace final status status_json json created_docs
       submitted_durations filter is_submission touches_cache map ev_call
       List.length calls In] in *.

Ltac solve_create_shape :=
  unfold create_shape; reduce_notions;
  split;
    [ let H := fresh in intro H;
      first [ discriminate
            | do 3 eexists; split; [find_event | reflexivity] ]
    | split;
      [ let d := fresh "d" in let H := fresh in
        intros d H;
        first [ contradiction
              | destruct H as [<- | []]; do 2 eexists;
                split; [find_event | split; reflexivity] ]
      | split; [ lia
        | split; [ lia
          | let c := fresh "c" in let H := fresh in let Hc := fresh in
            intros c H Hc;
            first [ contradiction
                  | eexists; find_event
                  | exfalso; intuition (subst; discriminate) ] ] ] ] ].

(** Split a membership in a concrete list into its cases. *)
Ltac cases_in H :=
  cbn [In] in H;
  repeat (destruct H as [H | H]; try discriminate); try contradiction.

Ltac solve_donate_shape :=
  unfold donate_shape; reduce_notions;
  split;
    [ split;
      [ let H := fresh in intro H;
        first [ discriminate | eexists; find_event ]
      | let tx := fresh "tx" in let H := fresh in
        intros [tx H]; first [ reflexivity | cases_in H ] ]
    | split;
      [ let tx := fresh "tx" in let H := fresh in
        intros tx H; cases_in H; injection H as <-; reflexivity
      | split; [ reflexivity
        | split; [ lia
          | split;
            [ let c := fresh "c" in let H := fresh in let Hc := fresh in
              intros c H Hc;
              first [ contradiction
                    | eexists; find_event
                    | exfalso; intuition (subst; discriminate) ]
            | let n := fresh "n" in let a := fresh "a" in let H := fresh in
              intros n a H; cases_in H; injection H as <- _; reflexivity ] ] ] ] ].

Section WriteHandlers.
Context {lib : Lib} {St : Type}.
Variable respond : forall c : Call, St -> result (Resp c) * St.

(** What a run of [POST /createCampaign] looks like, whatever the
    environment does. *)
Lemma index_create_shape
    (contract : option Contract) (req_body : CreateBody) (req_user : string) (s : St) :
  create_shape "Campaign created!"
    (run respond (Index.post_createCampaign contract req_body req_user) s).
Proof.
  unfold Index.post_createCampaign, Index.resolve_campaignId.
  destruct contract as [c0 |]; exec.
  all: solve_create_shape.
Qed.

(** The same for the controller [createCampaignOnBlockchain]. *)
Lemma controller_create_shape
    (contract : option Contract) (req_body : CreateBody) (req_user : string) (s : St) :
  create_shape "Campaign created"
    (run respond (Controller.createCampaignOnBlockchain contract req_body req_user) s).
Proof.
  unfold Controller.createCampaignOnBlockchain.
  destruct contract as [c0 |]; exec.
  all: solve_create_shape.
Qed.

(** What a run of [POST /donate] looks like. *)
Lemma index_donate_shape
    (contract : option Contract) (req_body : DonateBody) (s : St) :
  donate_shape "Donation successful!" (Number (body_id req_body))
    (run respond (Index.post_donate contract req_body) s).
Proof.
  unfold Index.post_donate.
  destruct contract as [c0 |]; exec.
  all: solve_donate_shape.
Qed.

(** What a run of the controller [donateToCampaign] looks like: it
    makes no cache call at all. *)
Lemma controller_donate_shape
    (contract : option Contract) (req_body : DonateBody) (s : St) :
  donate_shape "Donation successful" (Number (body_id req_body))
    (run respond (donateToCampaign contract req_body) s)
  /\ forall c,
       In c (map ev_call (trace (run respond (donateToCampaign contract req_body) s))) ->
       touches_cache c = false.
Proof.
  unfold donateToCampaign.
  destruct contract as [c0 |]; exec.
  all: (split;
        [ solve_donate_shape
        | let c := fresh "c" in let H := fresh in
          intros c H; cbn [map ev_call trace In] in H;
          repeat (destruct H as [<- | H]; [reflexivity |]); contradiction ]).
Qed.

(** X3.  The write handlers answer 200 only for a confirmed transaction:
    whenever [POST /createCampaign], [createCampaignOnBlockchain],
    [POST /donate] or [donateToCampaign] answers 200, a [tx.wait()]
    resolved during the request and the response carries the hash of
    that transaction; for the two donation handlers the converse holds
    as well: a resolved [tx.wait()] gives the 200 with the hash of its
    transaction. *)
Theorem success_only_after_confirmation
    (contract : option Contract) (create : CreateBody) (user : string)
    (donation : DonateBody) (s : St) :
  (answered (run respond (Index.post_createCampaign contract create user) s) = Some 200 ->
   exists tx bn id,
     In (mkEvent (wait tx) true)
        (trace (run respond (Index.post_createCampaign contract create user) s))
     /\ outcome (run respond (Index.post_createCampaign contract create user) s)
        = Ok (json (Created "Campaign created!" (hash tx) bn id)))
  /\ (answered (run respond (Controller.createCampaignOnBlockchain contract create user) s)
      = Some 200 ->
      exists tx bn id,
        In (mkEvent (wait tx) true)
           (trace (run respond
                     (Controller.createCampaignOnBlockchain contract create user) s))
        /\ outcome (run respond
                      (Controller.createCampaignOnBlockchain contract create user) s)
           = Ok (json (Created "Campaign created" (hash tx) bn id)))
  /\ ((answered (run respond (Index.post_donate contract donation) s) = Some 200
       <-> exists tx,
           In (mkEvent (wait tx) true)
              (trace (run respond (Index.post_donate contract donation) s)))
      /\ (answered (run respond (Index.post_donate contract donation) s) = Some 200 ->
          exists tx,
            In (mkEvent (wait tx) true)
               (trace (run respond (Index.post_donate contract donation) s))
            /\ outcome (run respond (Index.post_donate contract donation) s)
               = Ok (json (Donated "Donation successful!" (hash tx))))
      /\ (forall tx,
             In (mkEvent (wait tx) true)
                (trace (run respond (Index.post_donate contract donation) s)) ->
             outcome (run respond (Index.post_donate contract donation) s)
             = Ok (json (Donated "Donation successful!" (hash tx)))))
  /\ ((answered (run respond (donateToCampaign contract donation) s) = Some 200
       <-> exists tx,
           In (mkEvent (wait tx) true)
              (trace (run respond (donateToCampaign contract donation) s)))
      /\ (answered (run respond (donateToCampaign contract donation) s) = Some 200 ->
          exists tx,
            In (mkEvent (wait tx) true)
               (trace (run respond (donateToCampaign contract donation) s))
            /\ outcome (run respond (donateToCampaign contract donation) s)
               = Ok (json (Donated "Donation successful" (hash tx))))
      /\ (forall tx,
             In (mkEvent (wait tx) true)
                (trace (run respond (donateToCampaign contract donation) s)) ->
             outcome (run respond (donateToCampaign contract donation) s)
             = Ok (json (Donated "Donation successful" (hash tx))))).
Proof.
  split; [exact (proj1 (index_create_shape contract create user s)) |].
  split; [exact (proj1 (controller_create_shape contract create user s)) |].
  split.
  - destruct (index_donate_shape contract donation s) as (Hiff & Hhash & _).
    split; [exact Hiff |]. split; [| exact Hhash].
    intro H200. destruct (proj1 Hiff H200) as [tx Htx].
    exists tx. split; [exact Htx | exact (Hhash tx Htx)].
  - destruct (proj1 (controller_donate_shape contract donation s))
      as (Hiff & Hhash & _).
    split; [exact Hiff |]. split; [| exact Hhash].
    intro H200. destruct (proj1 Hiff H200) as [tx Htx].
    exists tx. split; [exact Htx | exact (Hhash tx Htx)].
Qed.

(** X4.  A cache document is created only for a confirmed transaction:
    every document [POST /createCampaign] or [createCampaignOnBlockchain]
    hands to [Campaign.create] carries the hash of a transaction whose
    [tx.wait()] resolved in the request, the request then answers 200
    with that hash and with the [campaignId] of the document, and a
    request creates at most one document. *)
Theorem documents_record_confirmed_transactions
    (contract : option Contract) (create : CreateBody) (user : string) (s : St) :
  ((forall d,
       In d (created_docs
               (trace (run respond (Index.post_createCampaign contract create user) s))) ->
       exists tx bn,
         In (mkEvent (wait tx) true)
            (trace (run respond (Index.post_createCampaign contract create user) s))
         /\ txHash d = hash tx
         /\ outcome (run respond (Index.post_createCampaign contract create user) s)
            = Ok (json (Created "Campaign created!" (hash tx) bn (campaignId d))))
   /\ (List.length
         (created_docs
            (trace (run respond (Index.post_createCampaign contract create user) s)))
       <= 1)%nat)
  /\ ((forall d,
          In d (created_docs
                  (trace (run respond
                            (Controller.createCampaignOnBlockchain contract create user)
                            s))) ->
          exists tx bn,
            In (mkEvent (wait tx) true)
               (trace (run respond
                         (Controller.createCampaignOnBlockchain contract create user) s))
            /\ txHash d = hash tx
            /\ outcome (run respond
                          (Controller.createCampaignOnBlockchain contract create user) s)
               = Ok (json (Created "Campaign created" (hash tx) bn (campaignId d))))
      /\ (List.length
            (created_docs
               (trace (run respond
                         (Controller.createCampaignOnBlockchain contract create user) s)))
          <= 1)%nat).
Proof.
  destruct (index_create_shape contract create user s) as (_ & Hd & Hn & _).
  destruct (controller_create_shape contract create user s) as (_ & Hd' & Hn' & _).
  auto.
Qed.

(** X5.  No write handler submits twice: in every request, whatever
    fails, at most one [createCampaign] or [fund] transaction is
    submitted to the ledger. *)
Theorem at_most_one_submission
    (contract : option Contract) (create : CreateBody) (user : string)
    (donation : DonateBody) (s : St) :
  (List.length (filter is_submission
                  (calls respond (Index.post_createCampaign contract create user) s))
   <= 1)%nat
  /\ (List.length (filter is_submission
                     (calls respond
                        (Controller.createCampaignOnBlockchain contract create user) s))
      <= 1)%nat
  /\ (List.length (filter is_submission
                     (calls respond (Index.post_donate contract donation) s))
      <= 1)%nat
  /\ (List.length (filter is_submission
                     (calls respond (donateToCampaign contract donation) s))
      <= 1)%nat.
Proof.
  unfold calls.
  destruct (index_create_shape contract create user s) as (_ & _ & _ & H1 & _).
  destruct (controller_create_shape contract create user s) as (_ & _ & _ & H2 & _).
  destruct (index_donate_shape contract donation s) as (_ & _ & _ & H3 & _).
  destruct (controller_donate_shape contract donation s) as ((_ & _ & _ & H4 & _) & _).
  auto.
Qed.

(** X6.  A donation reaches the cache store only once it is confirmed:
    every cache call of [POST /donate] comes in a request whose
    [tx.wait()] resolved, the handler never creates a document, and the
    only update it makes is keyed by [Number(id)]; the controller
    [donateToCampaign] makes no cache call at all. *)
Theorem donation_cache_calls
    (contract : option Contract) (donation : DonateBody) (s : St) :
  (forall c,
      In c (calls respond (Index.post_donate contract donation) s) ->
      touches_cache c = true ->
      exists tx,
        In (mkEvent (wait tx) true)
           (trace (run respond (Index.post_donate contract donation) s)))
  /\ created_docs (trace (run respond (Index.post_donate contract donation) s)) = []
  /\ (forall n a,
         In (Campaign_findOneAndUpdate n a)
            (calls respond (Index.post_donate contract donation) s) ->
         n = Number (body_id donation))
  /\ (forall c,
         In c (calls respond (donateToCampaign contract donation) s) ->
         touches_cache c = false).
Proof.
  unfold calls.
  destruct (index_donate_shape contract donation s) as (_ & _ & Hdocs & _ & Hcache & Hkey).
  destruct (controller_donate_shape contract donation s) as (_ & Hnone).
  auto.
Qed.

(** X7.  The controller can answer 500 for a creation that is on the
    ledger: when the [campaignCount()] read that follows the confirmation
    fails, [createCampaignOnBlockchain] answers 500 and creates no cache
    document. *)
Theorem controller_confirmed_creation_can_fail
    (contract : option Contract) (create : CreateBody) (user : string)
    (s : St) (tx : Tx) :
  let r := run respond (Controller.createCampaignOnBlockchain contract create user) s in
  In (mkEvent (wait tx) true) (trace r) ->
  In (mkEvent campaignCount false) (trace r) ->
  answered r = Some 500
  /\ created_docs (trace r) = []
  /\ forall c, In c (map ev_call (trace r)) -> touches_cache c = false.
Proof.
  cbv zeta. unfold Controller.createCampaignOnBlockchain.
  destruct contract as [c0 |]; exec.
  all: let H1 := fresh in let H2 := fresh in
       intros H1 H2; reduce_notions;
       first [ contradiction
             | exfalso; cases_in H2; fail
             | exfalso; cases_in H1; fail
             | idtac ].
  all: repeat split; try reflexivity.
  all: let c := fresh "c" in let H := fresh in
       intros c H; repeat (destruct H as [<- | H]; [reflexivity |]); contradiction.
Qed.

(** X8.  A body that lacks a title, a description or a goal reaches
    neither the ledger nor the cache store: [POST /createCampaign]
    answers 400 without any call, and so does the controller, except
    that it answers 500 when the goal is [null] (it only tests for
    [undefined]) and title and description are present. *)
Theorem missing_fields_are_refused
    (contract : Contract) (create : CreateBody) (user : string) (s : St) :
  missing_fields create = true ->
  run respond (Index.post_createCampaign (Some contract) create user) s
  = mkRun (Ok (status_json 400
                 (Failure (Some false) (Some "title, description and goal are required")
                    None)))
          s []
  /\ trace (run respond
              (Controller.createCampaignOnBlockchain (Some contract) create user) s) = []
  /\ answered (run respond
                 (Controller.createCampaignOnBlockchain (Some contract) create user) s)
     = Some (if truthy (body_title create) && truthy (body_description create)
             then match body_goal create with JNull => 500 | _ => 400 end
             else 400).
Proof.
  unfold missing_fields, Index.post_createCampaign, Controller.createCampaignOnBlockchain.
  intro Hmissing. rewrite Hmissing.
  split; [reflexivity |].
  destruct (truthy (body_title create)), (truthy (body_description create)),
    (body_goal create); try discriminate; split; reflexivity.
Qed.

End WriteHandlers.

(** A body whose goal is [null]. *)
Lemma missing_fields_are_refused_witness :
  let body := mkCreateBody (JStr "A") (JStr "d") JNull JUndefined in
  answered (run (respond_world (L := SpecLedger.model))
              (Index.post_createCampaign (lib := Demo.lib) (Some EthersContract) body "u1")
              (Demo.world Demo.four_campaigns [] 1 None))
  = Some 400
  /\ answered (run (respond_world (L := SpecLedger.model))
                 (Controller.createCampaignOnBlockchain (lib := Demo.lib)
                    (Some EthersContract) body "u1")
                 (Demo.world Demo.four_campaigns [] 1 None))
     = Some 500.
Proof.
  cbv zeta.
  destruct (missing_fields_are_refused (lib := Demo.lib)
              (respond_world (L := SpecLedger.model)) EthersContract
              (mkCreateBody (JStr "A") (JStr "d") JNull JUndefined) "u1"
              (Demo.world Demo.four_campaigns [] 1 None) eq_refl)
    as (Hindex & _ & Hcontroller).
  split; [rewrite Hindex; reflexivity | exact Hcontroller].
Defined.

(** The controller on a ledger whose reads fail. *)
Lemma controller_confirmed_creation_can_fail_witness :
  let r := run (respond_world (L := Demo.silent_ledger))
               (Controller.createCampaignOnBlockchain (lib := Demo.lib)
                  (Some EthersContract) Demo.request "u1")
               (Demo.silent_world [] 1 None) in
  answered r = Some 500
  /\ created_docs (trace r) = []
  /\ forall c, In c (map ev_call (trace r)) -> touches_cache c = false.
Proof.
  apply (controller_confirmed_creation_can_fail (lib := Demo.lib)
           (respond_world (L := Demo.silent_ledger)) (Some EthersContract)
           Demo.request "u1" (Demo.silent_world [] 1 None) (mkTx "0xabc")).
  - vm_compute. auto 10.
  - vm_compute. auto 10.
Defined.

(* ===================================================================== *)
(** ** Further properties: reconciliation and single reads                *)
(* ===================================================================== *)

Ltac solve_sync_shape :=
  unfold sync_shape; reduce_notions;
  split;
    [ let c := fresh "c" in let H := fresh in
      intros c H;
      repeat (destruct H as [<- | H];
              [ repeat split; try reflexivity; try discriminate; intros; discriminate |]);
      contradiction
    | split;
      [ cbn [filter is_ledger_read List.length map ev_call]; lia
      | split;
        [ let e := fresh "e" in let H := fresh in let Hf := fresh in
          intros e H Hf;
          repeat (destruct H as [<- | H];
                  [ first [ discriminate Hf | reflexivity ] |]);
          contradiction
        | eexists; reflexivity ] ] ].

Section Reconcile.
Context {lib : Lib} {St : Type}.
Variable respond : forall c : Call, St -> result (Resp c) * St.

Lemma sync_campaign_shape (contract : option Contract) (campaignId : value) (s : St) :
  sync_shape (run respond (Index.post_sync_campaign contract campaignId) s).
Proof.
  unfold Index.post_sync_campaign.
  destruct contract as [c0 |]; exec.
  all: solve_sync_shape.
Qed.

(** X9.  [POST /sync-campaign] never writes the ledger and never creates
    a cache document: in every request it submits no transaction, does
    not read [campaignCount], reads the ledger at most once, and when
    [campaignId] is missing or falsy (0 included) it answers 400 without
    any call. *)
Theorem sync_never_writes_the_ledger
    (contract : Contract) (campaignId : value) (s : St) :
  (forall c, In c (calls respond (Index.post_sync_campaign (Some contract) campaignId) s) ->
             is_submission c = false
             /\ c <> campaignCount
             /\ forall d, c <> Campaign_create d)
  /\ (List.length
        (filter is_ledger_read
           (calls respond (Index.post_sync_campaign (Some contract) campaignId) s))
      <= 1)%nat
  /\ (truthy campaignId = false ->
      run respond (Index.post_sync_campaign (Some contract) campaignId) s
      = mkRun (Ok (status_json 400
                     (Failure (Some false) (Some "campaignId is required") None)))
              s []).
Proof.
  destruct (sync_campaign_shape (Some contract) campaignId s) as (Hcalls & Hreads & _).
  split; [exact Hcalls |]. split; [exact Hreads |].
  intro Hfalsy. unfold Index.post_sync_campaign. rewrite Hfalsy. reflexivity.
Qed.

(** X10.  [POST /sync-campaign] does not swallow failures: whenever a
    call it makes fails, be it the ledger read, the mongoose import or
    the cache update, the request answers 500; and it always answers. *)
Theorem sync_answers_500_on_any_failure
    (contract : option Contract) (campaignId : value) (s : St) (e : Event) :
  In e (trace (run respond (Index.post_sync_campaign contract campaignId) s)) ->
  ev_ok e = false ->
  answered (run respond (Index.post_sync_campaign contract campaignId) s) = Some 500.
Proof.
  destruct (sync_campaign_shape contract campaignId s) as (_ & _ & Hfail & _).
  apply Hfail.
Qed.

(** X11.  When the cache store is not connected ([readyState] is not 1),
    [POST /sync-campaign] still answers 200 with the amount read from the
    ledger and a warning, after exactly two calls: the ledger read and
    the [readyState] check. *)
Theorem sync_without_cache_store
    (contract : Contract) (campaignId : value) (s : St)
    (id : Z) (result : CampaignTuple) (readyState : Z) :
  truthy campaignId = true ->
  BigInt campaignId = Ok id ->
  fst (respond (getCampaign id) s) = Ok result ->
  fst (respond mongoose_readyState (snd (respond (getCampaign id) s))) = Ok readyState ->
  readyState <> 1 ->
  outcome (run respond (Index.post_sync_campaign (Some contract) campaignId) s)
  = Ok (json (Synced (parseFloat (formatEther (amountCollected result)))
                     (Some "MongoDB not connected - sync skipped")))
  /\ calls respond (Index.post_sync_campaign (Some contract) campaignId) s
     = [getCampaign id; mongoose_readyState].
Proof.
  intros Htruthy Hid Hget Hready Hne.
  unfold calls, Index.post_sync_campaign. rewrite Htruthy, Hid.
  cbn [negb]. reduce_run. rewrite Hget. reduce_run. rewrite Hready. reduce_run.
  apply Z.eqb_neq in Hne. rewrite Hne. reduce_run. auto.
Qed.

(** X12.  An identifier that is not a number never reaches
    [getCampaign]: [GET /campaign/:id] of [server/index.js] answers 500
    without any call when [BigInt(id)] throws, and the controller answers
    404 after the count read when [Number(id)] is NaN. *)
Theorem malformed_identifier
    (contract : Contract) (params_id : string) (s : St) :
  (StringToBigInt params_id = None ->
   run respond (Index.get_campaign (Some contract) params_id) s
   = mkRun (Ok (status_json 500 (Failure None (Some "Could not fetch campaign") None)))
           s [])
  /\ (StringToNumber params_id = NaN ->
      calls respond (Controller.getCampaignFromBlockchain (Some contract) params_id) s
      = [campaignCount]
      /\ (is_ok (fst (respond campaignCount s)) = true ->
          outcome (run respond
                     (Controller.getCampaignFromBlockchain (Some contract) params_id) s)
          = Ok (status_json 404 (Failure None (Some "Not found") None)))).
Proof.
  split.
  - intro Hbig. unfold Index.get_campaign, BigInt_of_string. rewrite Hbig. reflexivity.
  - intro Hnan. unfold calls, Controller.getCampaignFromBlockchain. rewrite Hnan.
    reduce_run.
    destruct (respond campaignCount s) as [[total | e] s1]; reduce_run.
    + cbn [isNaN orb]. reduce_run. auto.
    + split; [reflexivity | discriminate].
Qed.

End Reconcile.

(** A cache store that is down makes the sync answer 500. *)
Lemma sync_answers_500_on_any_failure_witness :
  answered (run (respond_world (L := SpecLedger.model))
              (Index.post_sync_campaign (lib := Demo.lib) (Some EthersContract) (JStr "1"))
              (Demo.world Demo.four_campaigns [] 1 (Some Demo.cache_down)))
  = Some 500.
Proof.
  apply (sync_answers_500_on_any_failure (lib := Demo.lib)
           (respond_world (L := SpecLedger.model)) (Some EthersContract) (JStr "1")
           (Demo.world Demo.four_campaigns [] 1 (Some Demo.cache_down))
           (mkEvent (Campaign_findOneAndUpdate (of_int 1) (of_int 0)) false)).
  - vm_compute. auto 10.
  - reflexivity.
Defined.

(** The cache store not connected. *)
Lemma sync_without_cache_store_witness :
  outcome (run (respond_world (L := SpecLedger.model))
             (Index.post_sync_campaign (lib := Demo.lib) (Some EthersContract) (JStr "1"))
             (Demo.world Demo.four_campaigns [] 0 None))
  = Ok (json (Synced (of_int 0) (Some "MongoDB not connected - sync skipped")))
  /\ calls (respond_world (L := SpecLedger.model))
       (Index.post_sync_campaign (lib := Demo.lib) (Some EthersContract) (JStr "1"))
       (Demo.world Demo.four_campaigns [] 0 None)
     = [getCampaign 1; mongoose_readyState].
Proof.
  apply (sync_without_cache_store (lib := Demo.lib)
           (respond_world (L := SpecLedger.model)) EthersContract (JStr "1")
           (Demo.world Demo.four_campaigns [] 0 None)
           (id := 1) (result := Demo.a_campaign 1) (readyState := 0));
    try reflexivity.
  discriminate.
Defined.

(* ===================================================================== *)
(** ** Further properties: enumeration                                    *)
(* ===================================================================== *)

Lemma Forall_reads_getCampaign (ids : list Z) :
  Forall (fun c => is_ledger_read c = true) (map getCampaign ids).
Proof.
  induction ids as [| i ids IH]; constructor; [reflexivity | exact IH].
Qed.

Lemma rc_id_format_raw {lib : Lib} (c : RawCampaign) :
  rc_id (Controller.format_raw c) = rc_id c.
Proof.
  unfold Controller.format_raw.
  destruct (formatEther_string (string_or (rc_goal c) "0"));
    [destruct (formatEther_string (string_or (rc_amountCollected c) "0")) |];
    reflexivity.
Qed.

(** The copying [out.map] at the end of [fetchAllCampaigns] changes
    nothing. *)
Lemma map_copy_raw (l : list RawCampaign) :
  map (fun c => mkRaw (rc_id c) (rc_creator c) (rc_title c) (rc_description c)
                      (rc_goal c) (rc_amountCollected c) (rc_deadline c)) l
  = l.
Proof.
  induction l as [| [? ? ? ? ? ? ?] l IH]; [reflexivity |]. cbn. f_equal. exact IH.
Qed.

Section Listing.
Context {lib : Lib} {St : Type}.
Variable respond : forall c : Call, St -> result (Resp c) * St.

(** X13.  [GET /campaigns] always answers 200 with an array, whatever
    the contract, the ledger node and the count do, and it makes nothing
    but ledger reads. *)
Theorem list_always_answers (contract : option Contract) (s : St) :
  exists l,
    outcome (run respond (Index.get_campaigns contract) s) = Ok (json (Campaigns l))
    /\ Forall (fun c => is_ledger_read c = true)
              (calls respond (Index.get_campaigns contract) s).
Proof.
  destruct contract as [contract |].
  - destruct (fst (respond campaignCount s)) as [count | e] eqn:Hcount.
    + destruct (get_campaigns_run respond contract s Hcount) as (l & Hout & Hcalls & _).
      exists l. split; [exact Hout |]. rewrite Hcalls.
      constructor; [reflexivity | apply Forall_reads_getCampaign].
    + exists []. unfold calls, Index.get_campaigns. reduce_run. rewrite Hcount.
      reduce_run. split; [reflexivity |]. repeat constructor.
  - exists []. split; [reflexivity | constructor].
Qed.

(** The controller's list when the count read resolves. *)
Lemma getAllBlockchainCampaigns_run (contract : Contract) (s : St) (count : Z) :
  fst (respond campaignCount s) = Ok count ->
  exists raw,
    outcome (run respond (Controller.getAllBlockchainCampaigns (Some contract)) s)
    = Ok (json (Formatted (map Controller.format_raw raw)))
    /\ outcome (run respond (Blockchain.fetchAllCampaigns (Some contract)) s) = Ok raw
    /\ trace (run respond (Controller.getAllBlockchainCampaigns (Some contract)) s)
       = trace (run respond (Blockchain.fetchAllCampaigns (Some contract)) s).
Proof.
  intro Hcount.
  destruct (fetchAllCampaigns_run respond contract s Hcount) as (raw & Hout & _ & _).
  exists raw. unfold Controller.getAllBlockchainCampaigns.
  cbn [Monad.bind Monad_Prog ret catch MonadExc_Prog].
  rewrite run_try_catch, run_bind, Hout. cbn. rewrite app_nil_r. auto.
Qed.

(** X14.  The controller's list is resilient to failing fetches as well:
    [getAllBlockchainCampaigns] answers 200 with one entry for each
    identifier of [1..count] whose fetch does not fail, in order, after
    one count read and one fetch per identifier. *)
Theorem controller_enumeration_omits_only_failing_identifiers
    (contract : Contract) (s : St) (count : Z) (fails : Z -> bool) :
  fst (respond campaignCount s) = Ok count ->
  (forall i s', is_ok (fst (respond (getCampaign i) s')) = negb (fails i)) ->
  exists l,
    outcome (run respond (Controller.getAllBlockchainCampaigns (Some contract)) s)
    = Ok (json (Formatted l))
    /\ map rc_id l = filter (fun i => negb (fails i)) (identifiers count)
    /\ calls respond (Controller.getAllBlockchainCampaigns (Some contract)) s
       = campaignCount :: map getCampaign (identifiers count).
Proof.
  intros Hcount Hfails.
  destruct (getAllBlockchainCampaigns_run contract s Hcount) as (raw & Hout & Hraw & Htrace).
  destruct (fetchAllCampaigns_run respond contract s Hcount) as (raw' & Hraw' & Hcalls & Hids).
  rewrite Hraw in Hraw'. injection Hraw' as <-.
  exists (map Controller.format_raw raw). split; [exact Hout |]. split.
  - rewrite map_map.
    rewrite (map_ext (fun x => rc_id (Controller.format_raw x)) rc_id)
      by (intro; apply rc_id_format_raw).
    rewrite Hids. apply fetched_after_count; [exact Hcalls |].
    intros e i Hin Hc.
    destruct (trace_ok respond _ s e Hin) as [s' Hs']. rewrite Hs', Hc. apply Hfails.
  - unfold calls. rewrite Htrace. exact Hcalls.
Qed.

End Listing.

Lemma controller_enumeration_omits_only_failing_identifiers_witness :
  exists l,
    outcome (run Demo.five_with_gap
               (Controller.getAllBlockchainCampaigns (lib := Demo.lib)
                  (Some EthersContract)) tt)
    = Ok (json (Formatted l))
    /\ map rc_id l = [1; 2; 4; 5]
    /\ calls Demo.five_with_gap
         (Controller.getAllBlockchainCampaigns (lib := Demo.lib) (Some EthersContract)) tt
       = [campaignCount; getCampaign 1; getCampaign 2; getCampaign 3; getCampaign 4;
          getCampaign 5].
Proof.
  apply (controller_enumeration_omits_only_failing_identifiers (lib := Demo.lib)
           Demo.five_with_gap EthersContract tt (count := 5) (fun i => i =? 3)).
  - reflexivity.
  - intros i s'. cbn. destruct (i =? 3); reflexivity.
Defined.

(** *** Enumeration of a ledger snapshot *)

Section Snapshots.
Context {lib : Lib}.
Variable L : LedgerModel.

(** A program that only reads the ledger leaves the world as it was. *)
Lemma reads_leave_world {A} (p : Prog A) :
  forall w : World L,
    Forall (fun c => is_ledger_read c = true) (calls (respond_world (L := L)) p w) ->
    final (run (respond_world (L := L)) p w) = w.
Proof.
  unfold calls.
  induction p as [a | e | c k IH]; intros w Hreads; [reflexivity | reflexivity |].
  cbn [run trace map ev_call final] in *.
  inversion Hreads as [| ? ? Hc Hrest]; subst.
  destruct c; try discriminate; cbn [respond_world fst snd] in *; apply IH; exact Hrest.
Qed.

Section SnapshotLoop.
Variable V : Type.
Variable entry : Z -> CampaignTuple -> V.
Variable step : Z -> list V -> Prog (list V).
Hypothesis run_step : forall i acc (w : World L),
  run (respond_world (L := L)) (step i acc) w =
  mkRun (Ok (match fst (respond_world (getCampaign i) w) with
             | Ok c => acc ++ [entry i c]
             | Err _ => acc
             end))
        (snd (respond_world (getCampaign i) w))
        [mkEvent (getCampaign i) (is_ok (fst (respond_world (getCampaign i) w)))].
Variable total : Z.

Lemma snapshot_for_to (fuel : nat) :
  forall i acc (w : World L),
    Z.of_nat fuel = Z.max 0 (total - i + 1) ->
    outcome (run (respond_world (L := L)) (for_to fuel i total step acc) w)
    = Ok (acc ++ collect (led_getCampaign L (chain w)) entry (upto fuel i)).
Proof.
  induction fuel as [| fuel IH]; intros i acc w Hfuel.
  - cbn. rewrite app_nil_r. reflexivity.
  - assert (Hle : (i <=? total) = true) by (apply Z.leb_le; lia).
    cbn [for_to]. rewrite Hle.
    cbn [Monad.bind Monad_Prog]. rewrite run_bind, run_step.
    cbn [outcome final trace respond_world fst snd upto collect].
    rewrite IH by lia.
    destruct (led_getCampaign L (chain w) i) as [c | e]; [| reflexivity].
    rewrite <- app_assoc. reflexivity.
Qed.

End SnapshotLoop.

(** X15.  On a ledger snapshot the two enumerations are the map of the
    ledger over [1..count]: [GET /campaigns] answers with the views of
    exactly the campaigns [getCampaign] answers for, [fetchAllCampaigns]
    with their raw entries, both in ascending order, and neither changes
    the ledger or the cache store. *)
Theorem enumeration_of_a_snapshot (contract : Contract) (w : World L) (count : Z) :
  led_campaignCount L (chain w) = Ok count ->
  run (respond_world (L := L)) (Index.get_campaigns (Some contract)) w
  = mkRun (Ok (json (Campaigns
                       (collect (led_getCampaign L (chain w)) listed_view
                                (identifiers count)))))
          w
          (trace (run (respond_world (L := L)) (Index.get_campaigns (Some contract)) w))
  /\ run (respond_world (L := L)) (Blockchain.fetchAllCampaigns (Some contract)) w
     = mkRun (Ok (collect (led_getCampaign L (chain w)) raw_view (identifiers count)))
             w
             (trace (run (respond_world (L := L))
                       (Blockchain.fetchAllCampaigns (Some contract)) w)).
Proof.
  intro Hcount.
  assert (Hc : fst (respond_world (L := L) campaignCount w) = Ok count) by exact Hcount.
  split.
  - destruct (get_campaigns_run (respond_world (L := L)) contract w Hc)
      as (l & Hout & Hcalls & _).
    assert (Hfinal : final (run (respond_world (L := L))
                              (Index.get_campaigns (Some contract)) w) = w).
    { apply reads_leave_world. rewrite Hcalls.
      constructor; [reflexivity | apply Forall_reads_getCampaign]. }
    assert (Hl : outcome (run (respond_world (L := L))
                            (Index.get_campaigns (Some contract)) w)
                 = Ok (json (Campaigns
                               (collect (led_getCampaign L (chain w)) listed_view
                                        (identifiers count))))).
    { unfold Index.get_campaigns.
      cbn [Monad.bind Monad_Prog ret catch MonadExc_Prog].
      rewrite run_try_catch, run_bind,
        (run_attempt_await (respond_world (L := L)) campaignCount), Hc.
      cbn [outcome final trace is_ok respond_world snd].
      destruct ((count <? 0) || (count =? 0)) eqn:Hz.
      - assert (Hid : identifiers count = []).
        { unfold identifiers. replace (Z.to_nat count) with O; [reflexivity |].
          apply orb_true_iff in Hz. destruct Hz as [Hz | Hz];
            [apply Z.ltb_lt in Hz | apply Z.eqb_eq in Hz]; lia. }
        rewrite Hid. reflexivity.
      - rewrite run_bind.
        rewrite (snapshot_for_to listed_view Index.campaigns_step
                   (fun i acc w' => run_campaigns_step (respond_world (L := L)) i acc w')
                   count (Z.to_nat count) 1 [] w) by lia.
        reflexivity. }
    revert Hl Hfinal.
    generalize (run (respond_world (L := L)) (Index.get_campaigns (Some contract)) w).
    intros [o f t] Hl Hfinal. cbn in Hl, Hfinal |- *. congruence.
  - destruct (fetchAllCampaigns_run (respond_world (L := L)) contract w Hc)
      as (l & Hout & Hcalls & _).
    assert (Hfinal : final (run (respond_world (L := L))
                              (Blockchain.fetchAllCampaigns (Some contract)) w) = w).
    { apply reads_leave_world. rewrite Hcalls.
      constructor; [reflexivity | apply Forall_reads_getCampaign]. }
    assert (Hl : outcome (run (respond_world (L := L))
                            (Blockchain.fetchAllCampaigns (Some contract)) w)
                 = Ok (collect (led_getCampaign L (chain w)) raw_view
                               (identifiers count))).
    { unfold Blockchain.fetchAllCampaigns.
      cbn [Monad.bind Monad_Prog ret].
      rewrite run_bind, (run_await (respond_world (L := L)) campaignCount), Hc.
      cbn [outcome final trace is_ok respond_world snd].
      rewrite run_bind.
      rewrite (snapshot_for_to raw_view Blockchain.fetch_step
                 (fun i acc w' => run_fetch_step (respond_world (L := L)) i acc w')
                 count (Z.to_nat count) 1 [] w) by lia.
      cbn [outcome run app]. rewrite map_copy_raw. reflexivity. }
    revert Hl Hfinal.
    generalize (run (respond_world (L := L))
                  (Blockchain.fetchAllCampaigns (Some contract)) w).
    intros [o f t] Hl Hfinal. cbn in Hl, Hfinal |- *. congruence.
Qed.

End Snapshots.

(** Five campaigns on the ledger of the specification. *)
Lemma enumeration_of_a_snapshot_witness :
  exists l,
    outcome (run (respond_world (L := SpecLedger.model))
               (Index.get_campaigns (lib := Demo.lib) (Some EthersContract))
               (Demo.world Examples.five_campaigns [] 1 None))
    = Ok (json (Campaigns l))
    /\ map lc_id l = [1; 2; 3; 4; 5]
    /\ map lc_title l = ["campaign 1"; "campaign 2"; "campaign 3"; "campaign 4"; "A"].
Proof.
  eexists.
  rewrite (proj1 (enumeration_of_a_snapshot (lib := Demo.lib) (L := SpecLedger.model)
                    EthersContract (Demo.world Examples.five_campaigns [] 1 None)
                    (count := 5) eq_refl)).
  repeat split.
Defined.

(* ===================================================================== *)
(** ** Further properties: the handlers against a ledger model            *)
(* ===================================================================== *)

(** Run a handler in a world as far as the outcomes known so far allow. *)
Ltac world_run :=
  cbn [run bind try_catch await lift attempt Monad.bind ret catch raise
       Monad_Prog MonadExc_Prog outcome final trace fst snd is_ok
       respond_world with_db with_chain negb orb
       chain db db_readyState db_fault random created_id body json status_json];
  try unfold cache_op.

(** [bigint.toString()] is never the empty string. *)
Lemma bigint_toString_truthy (z : Z) : truthy_string (bigint_toString z) = true.
Proof.
  unfold bigint_toString, NilZero.string_of_int, NilZero.string_of_uint.
  destruct (Z.to_int z) as [d | d]; [| reflexivity].
  destruct d; reflexivity.
Qed.

Section AgainstLedger.
Context {lib : Lib}.
Variable L : LedgerModel.

(** X16.  A confirmed donation through [POST /donate] leaves the cache
    document of the campaign with the amount the ledger holds after the
    donation: the handler reads [getCampaign] once the transaction is
    confirmed and writes that amount over the cached one. *)
Theorem donation_updates_cached_amount
    (contract : Contract) (donation : DonateBody) (w : World L)
    (k v : Z) (amount_s : string) (tx : Tx) (c1 : LState L) (receipt : Receipt)
    (result : CampaignTuple) (q : Q) (d : CampaignDoc) :
  BigInt (body_id donation) = Ok k ->
  toString (amount donation) = Ok amount_s ->
  parseEther amount_s = Ok v ->
  led_fund L (chain w) k v = (Ok tx, c1) ->
  led_wait L c1 tx = Ok receipt ->
  db_readyState w = 1 ->
  db_fault w = None ->
  led_getCampaign L c1 k = Ok result ->
  Number (body_id donation) = Num q ->
  fst (findOneAndUpdate (db w) (Num q)
         (parseFloat (formatEther (amountCollected result)))) = Some d ->
  let r := run (respond_world (L := L)) (Index.post_donate (Some contract) donation) w in
  outcome r = Ok (json (Donated "Donation successful!" (hash tx)))
  /\ chain (final r) = c1
  /\ raisedEth d = Some (parseFloat (formatEther (amountCollected result)))
  /\ In d (db (final r)).
Proof.
  intros Hid Hs Hv Hfund Hwait Hready Hfault Hget Hnum Hfound.
  destruct (findOneAndUpdate_stores _ _ _ Hfound) as (Hraised & _ & Hin).
  cbv zeta. unfold Index.post_donate.
  repeat (world_run;
          rewrite ?Hid, ?Hs, ?Hv, ?Hfund, ?Hwait, ?Hready, ?Hfault, ?Hget, ?Hnum).
  change (1 =? 1) with true.
  repeat (world_run;
          rewrite ?Hid, ?Hs, ?Hv, ?Hfund, ?Hwait, ?Hready, ?Hfault, ?Hget, ?Hnum).
  destruct (findOneAndUpdate (db w) (Num q)
              (parseFloat (formatEther (amountCollected result))))
    as [found docs] eqn:Hupd.
  cbn [fst snd] in *. subst found. world_run. auto.
Qed.

(** X17.  When the receipt carries no creation event and the count read
    after confirmation gives [count], [POST /createCampaign] answers with
    the identifier [count] and the controller
    [createCampaignOnBlockchain], for the same body on the same ledger,
    with [count - 1]: the two fallbacks never agree. *)
Theorem fallback_identifiers_differ_by_one
    (contract : Contract) (create : CreateBody) (user : string) (w : World L)
    (goal_s : string) (goalWei duration : Z) (tx : Tx) (c1 : LState L)
    (receipt : Receipt) (count : Z) :
  missing_fields create = false ->
  toString (body_goal create) = Ok goal_s ->
  parseEther goal_s = Ok goalWei ->
  BigInt (nullish (durationInDays create) (JNum (of_int 30))) = Ok duration ->
  led_createCampaign L (chain w) (body_title create) (body_description create)
                     goalWei duration = (Ok tx, c1) ->
  led_wait L c1 tx = Ok receipt ->
  Index.scan_logs (logs receipt) = None ->
  led_campaignCount L c1 = Ok count ->
  (exists resp,
      outcome (run (respond_world (L := L))
                 (Index.post_createCampaign (Some contract) create user) w) = Ok resp
      /\ created_id resp = Some (of_int count))
  /\ (exists resp,
         outcome (run (respond_world (L := L))
                    (Controller.createCampaignOnBlockchain (Some contract) create user) w)
         = Ok resp
         /\ created_id resp = Some (sub (of_int count) (of_int 1))).
Proof.
  intros Hfields Hs Hg Hd Hcreate Hwait Hscan Hcount.
  split.
  - unfold Index.post_createCampaign, Index.resolve_campaignId.
    unfold missing_fields in Hfields. rewrite Hfields.
    destruct (db_readyState w =? 1) eqn:Hr; destruct (db_fault w) eqn:Hf;
      repeat (world_run;
              rewrite ?Hs, ?Hg, ?Hd, ?Hcreate, ?Hwait, ?Hscan, ?Hcount, ?Hr, ?Hf);
      eexists; split; reflexivity.
  - unfold Controller.createCampaignOnBlockchain.
    assert (Hfields' :
              negb (truthy (body_title create)) || negb (truthy (body_description create))
              || match body_goal create with JUndefined => true | _ => false end = false).
    { unfold missing_fields in Hfields.
      destruct (truthy (body_title create)), (truthy (body_description create)),
        (body_goal create); try discriminate; reflexivity. }
    rewrite Hfields'.
    destruct (db_fault w) eqn:Hf;
      repeat (world_run; rewrite ?Hs, ?Hg, ?Hd, ?Hcreate, ?Hwait, ?Hcount, ?Hf);
      eexists; split; reflexivity.
Qed.

(** X18.  The controller's list shows the same goal and raised strings
    as [GET /campaigns]: when the wei strings of a fetched campaign convert
    back to their bigints, [format_raw] replaces both by their
    [formatEther]; when the goal string does not convert, both fields
    stay in wei. *)
Theorem controller_list_formats_amounts (i : Z) (result : CampaignTuple) :
  (StringToBigInt (bigint_toString (goal result)) = Some (goal result) ->
   StringToBigInt (bigint_toString (amountCollected result))
   = Some (amountCollected result) ->
   Controller.format_raw (raw_view i result)
   = mkRaw i (creator result) (title result) (description result)
           (lc_goal (listed_view i result)) (lc_raised (listed_view i result))
           (rc_deadline (raw_view i result)))
  /\ (StringToBigInt (bigint_toString (goal result)) = None ->
      Controller.format_raw (raw_view i result) = raw_view i result).
Proof.
  unfold Controller.format_raw, raw_view, listed_view, formatEther_string, string_or.
  cbn [rc_goal rc_amountCollected rc_id rc_creator rc_title rc_description rc_deadline
       lc_goal lc_raised].
  rewrite !bigint_toString_truthy.
  split.
  - intros Hg Ha. rewrite Hg, Ha. reflexivity.
  - intros Hg. rewrite Hg. reflexivity.
Qed.

End AgainstLedger.

(** A donation of 100 to the fifth campaign of the specification's
    ledger. *)
Lemma donation_updates_cached_amount_witness :
  let w := Demo.world Examples.five_campaigns [Examples.fifth_doc] 1 None in
  let r := run (respond_world (L := SpecLedger.model))
               (Index.post_donate (lib := Demo.lib) (Some EthersContract)
                  (mkDonateBody (JStr "5") (JStr "100"))) w in
  exists d,
    outcome r = Ok (json (Donated "Donation successful!" "0x1"))
    /\ chain (final r) = snd (SpecLedger.fund Examples.five_campaigns 5 100)
    /\ raisedEth d = Some (of_int 100)
    /\ In d (db (final r)).
Proof.
  cbv zeta. eexists.
  apply (donation_updates_cached_amount (lib := Demo.lib) (L := SpecLedger.model)
           EthersContract (mkDonateBody (JStr "5") (JStr "100"))
           (Demo.world Examples.five_campaigns [Examples.fifth_doc] 1 None)
           (k := 5) (v := 100) (amount_s := "100") (tx := mkTx "0x1")
           (c1 := snd (SpecLedger.fund Examples.five_campaigns 5 100))
           (receipt := mkReceipt [Described (mkLogDescription "Funded" (Some 5))] 2)
           (result := mkCampaign "0xsigner" "A" "d" 1000 1702592000 100)
           (q := inject_Z 5));
    reflexivity.
Defined.

(** A creation on the ledger of four campaigns behind an interface that
    parses no event: 5 from [POST /createCampaign], 4 from the
    controller. *)
Lemma fallback_identifiers_differ_by_one_witness :
  (exists resp,
      outcome (run (respond_world (L := Examples.legacy_ledger))
                 (Index.post_createCampaign (lib := Demo.lib) (Some EthersContract)
                    Demo.request "u1")
                 (Examples.legacy_world Demo.four_campaigns [])) = Ok resp
      /\ created_id resp = Some (of_int 5))
  /\ (exists resp,
         outcome (run (respond_world (L := Examples.legacy_ledger))
                    (Controller.createCampaignOnBlockchain (lib := Demo.lib)
                       (Some EthersContract) Demo.request "u1")
                    (Examples.legacy_world Demo.four_campaigns [])) = Ok resp
         /\ created_id resp = Some (sub (of_int 5) (of_int 1))).
Proof.
  apply (fallback_identifiers_differ_by_one (lib := Demo.lib)
           (L := Examples.legacy_ledger) EthersContract Demo.request "u1"
           (Examples.legacy_world Demo.four_campaigns [])
           (goal_s := "1000") (goalWei := 1000) (duration := 30) (tx := mkTx "0x0")
           (c1 := Examples.five_campaigns) (receipt := mkReceipt [] 1) (count := 5));
    reflexivity.
Defined.

(** The campaigns of the example convert back. *)
Lemma controller_list_formats_amounts_witness :
  Controller.format_raw (lib := Demo.lib) (raw_view 1 (Demo.a_campaign 1))
  = mkRaw 1 "0xowner" "campaign 1" "d" "1000" "0" (Some "1700000000").
Proof.
  apply (proj1 (controller_list_formats_amounts (lib := Demo.lib) 1 (Demo.a_campaign 1)));
    reflexivity.
Defined.

(* ===================================================================== *)
(** ** Further properties: the start-up of the contract                   *)
(* ===================================================================== *)

Section StartupGate.
Context {lib : Lib} {St : Type}.
Variable respond : forall c : Call, St -> result (Resp c) * St.

(** X19.  The server keeps a contract only when the three environment
    variables are set, the ABI file exists, the contract can be
    constructed, the address holds code other than ["0x"] and the probing
    [campaignCount()] resolves; in every other case the contract is
    [null], and then none of the five endpoints of [server/index.js]
    that use the contract ([GET /campaigns], [POST /createCampaign],
    [POST /donate], [GET /campaign/:id] and [POST /sync-campaign]) makes
    a single call: [GET /campaigns] answers the empty array and the four
    others answer 503. *)
Theorem startup_gate
    (env : Startup.Env) (steps : Startup.Steps) (contract : Contract)
    (create : CreateBody) (user : string) (donation : DonateBody)
    (params_id : string) (campaignId : value) (s : St) :
  (Startup.contract env steps = Some contract
   <-> Startup.set (Startup.RPC_URL env) = true
       /\ Startup.set (Startup.PRIVATE_KEY env) = true
       /\ Startup.set (Startup.CONTRACT_ADDRESS env) = true
       /\ Startup.existsSync steps = true
       /\ Startup.construct steps = Ok contract
       /\ (exists code, Startup.getCode steps = Ok code /\ code <> "0x")
       /\ is_ok (Startup.probe steps) = true)
  /\ (Startup.contract env steps = None ->
      run respond (Index.get_campaigns (Startup.contract env steps)) s
      = mkRun (Ok (json (Campaigns []))) s []
      /\ answered (run respond
                     (Index.post_createCampaign (Startup.contract env steps) create user) s)
         = Some 503
      /\ trace (run respond
                  (Index.post_createCampaign (Startup.contract env steps) create user) s)
         = []
      /\ answered (run respond (Index.post_donate (Startup.contract env steps) donation) s)
         = Some 503
      /\ trace (run respond (Index.post_donate (Startup.contract env steps) donation) s)
         = []
      /\ answered (run respond (Index.get_campaign (Startup.contract env steps) params_id) s)
         = Some 503
      /\ trace (run respond (Index.get_campaign (Startup.contract env steps) params_id) s)
         = []
      /\ answered (run respond
                     (Index.post_sync_campaign (Startup.contract env steps) campaignId) s)
         = Some 503
      /\ trace (run respond
                  (Index.post_sync_campaign (Startup.contract env steps) campaignId) s)
         = []).
Proof.
  split.
  - unfold Startup.contract.
    destruct (Startup.set (Startup.RPC_URL env)),
      (Startup.set (Startup.PRIVATE_KEY env)),
      (Startup.set (Startup.CONTRACT_ADDRESS env)),
      (Startup.existsSync steps); cbn [andb negb];
      try (split; [discriminate | intros (? & ? & ? & ? & _); discriminate]).
    destruct (Startup.construct steps) as [c | e];
      [| split; [discriminate | intros (_ & _ & _ & _ & ? & _); discriminate]].
    destruct (Startup.getCode steps) as [code | e];
      [| split; [discriminate
                | intros (_ & _ & _ & _ & _ & (code & ? & _) & _); discriminate]].
    destruct (String.eqb code "0x") eqn:Hcode.
    + apply String.eqb_eq in Hcode. subst code.
      split; [discriminate |].
      intros (_ & _ & _ & _ & _ & (code & Hc & Hne) & _).
      injection Hc as <-. contradiction.
    + apply String.eqb_neq in Hcode.
      destruct (Startup.probe steps) as [n | e];
        [| split; [discriminate | intros (_ & _ & _ & _ & _ & _ & ?); discriminate]].
      split.
      * intro H. injection H as ->. repeat split. exists code. auto.
      * intros (_ & _ & _ & _ & Hc & _). congruence.
  - intro Hnone. rewrite Hnone. repeat split.
Qed.

End StartupGate.

(** A server started on an address without code. *)
Lemma startup_gate_witness :
  let steps := Startup.mkSteps true (Ok EthersContract) (Ok "0x") (Ok 4) in
  Startup.contract Examples.full_env steps = None
  /\ Startup.contract Examples.full_env Examples.started = Some EthersContract.
Proof.
  cbv zeta. split; [reflexivity |].
  apply (proj1 (startup_gate (lib := Demo.lib) Demo.five_with_gap
                  Examples.full_env Examples.started EthersContract
                  Demo.request "u1" Demo.donation "1" (JStr "1") tt)).
  repeat split; try reflexivity.
  exists "0x6080". split; [reflexivity | discriminate].
Defined.

(* ===================================================================== *)
(** ** Further properties: the mailer                                     *)
(* ===================================================================== *)

Section Mailer.
Context {lib : Lib}.

Import SendEmail.

(** X20.  With no transporter yet, [createTransporter] prefers SMTP:
    when the four SMTP variables are set it builds the SMTP transporter
    even if the Gmail credentials are set as well, with [secure] true
    only for [SMTP_SECURE] equal to the string ["true"]; it falls back to
    Gmail when an SMTP variable is missing or empty; and it throws,
    keeping no transporter, exactly when an SMTP variable and a Gmail
    variable are both missing. *)
Theorem createTransporter_prefers_smtp (env : Env) :
  (forall host port user pass,
      present (SMTP_HOST env) = Some host -> present (SMTP_PORT env) = Some port ->
      present (SMTP_USER env) = Some user -> present (SMTP_PASS env) = Some pass ->
      createTransporter env None
      = (Ok (Smtp host (StringToNumber port)
                  (match SMTP_SECURE env with
                   | Some s => String.eqb s "true"
                   | None => false
                   end) user pass),
         Some (Smtp host (StringToNumber port)
                    (match SMTP_SECURE env with
                     | Some s => String.eqb s "true"
                     | None => false
                     end) user pass)))
  /\ (forall user pass,
         present (SMTP_HOST env) = None \/ present (SMTP_PORT env) = None
         \/ present (SMTP_USER env) = None \/ present (SMTP_PASS env) = None ->
         present (EMAIL_USER env) = Some user -> present (EMAIL_PASS env) = Some pass ->
         createTransporter env None = (Ok (Gmail user pass), Some (Gmail user pass)))
  /\ (is_ok (fst (createTransporter env None)) = false
      <-> (present (SMTP_HOST env) = None \/ present (SMTP_PORT env) = None
           \/ present (SMTP_USER env) = None \/ present (SMTP_PASS env) = None)
          /\ (present (EMAIL_USER env) = None \/ present (EMAIL_PASS env) = None))
  /\ (is_ok (fst (createTransporter env None)) = false ->
      snd (createTransporter env None) = None).
Proof.
  unfold createTransporter.
  split; [| split; [| split]].
  - intros host port user pass -> -> -> ->. reflexivity.
  - intros user pass Hsmtp -> ->.
    destruct (present (SMTP_HOST env)), (present (SMTP_PORT env)),
      (present (SMTP_USER env)), (present (SMTP_PASS env)); try reflexivity.
    destruct Hsmtp as [H | [H | [H | H]]]; discriminate.
  - destruct (present (SMTP_HOST env)), (present (SMTP_PORT env)),
      (present (SMTP_USER env)), (present (SMTP_PASS env));
      destruct (present (EMAIL_USER env)), (present (EMAIL_PASS env));
      cbn [fst is_ok]; split; intro H; try discriminate; try tauto;
      try (destruct H as [[H | [H | [H | H]]] [H' | H']]; discriminate).
  - destruct (present (SMTP_HOST env)), (present (SMTP_PORT env)),
      (present (SMTP_USER env)), (present (SMTP_PASS env));
      destruct (present (EMAIL_USER env)), (present (EMAIL_PASS env));
      cbn [fst snd is_ok]; intro H; try discriminate; reflexivity.
Qed.

(** A call that succeeds keeps the transporter it answers with. *)
Lemma createTransporter_keeps
    (env : Env) (transporter : option Transporter) (t : Transporter) :
  fst (createTransporter env transporter) = Ok t ->
  snd (createTransporter env transporter) = Some t.
Proof.
  unfold createTransporter.
  destruct transporter as [t0 |].
  - cbn. intro H. injection H as ->. reflexivity.
  - destruct (present (SMTP_HOST env)), (present (SMTP_PORT env)),
      (present (SMTP_USER env)), (present (SMTP_PASS env));
      destruct (present (EMAIL_USER env)), (present (EMAIL_PASS env));
      cbn; intro H; try discriminate; injection H as <-; reflexivity.
Qed.

(** X21.  The transporter is built once: after a call of
    [createTransporter] that succeeded, every later call answers with
    that same transporter and keeps it, whatever the environment holds
    by then, even an environment with no credentials at all. *)
Theorem createTransporter_is_memoised
    (env env' : Env) (transporter : option Transporter) (t : Transporter) :
  fst (createTransporter env transporter) = Ok t ->
  snd (createTransporter env transporter) = Some t
  /\ createTransporter env' (snd (createTransporter env transporter)) = (Ok t, Some t).
Proof.
  intro Hok. pose proof (createTransporter_keeps env transporter Hok) as Hkept.
  split; [exact Hkept |]. rewrite Hkept. reflexivity.
Qed.

(** X22.  [sendEmail] hands exactly one message to [sendMail], through
    the transporter [createTransporter] answers with, and answers what
    [sendMail] answers, keeping the transporter even when the sending
    fails; when no transporter can be built nothing is sent.  The sender
    is [SMTP_USER] when that is set and not empty, else [EMAIL_USER]: it
    is the authenticated user of a freshly built SMTP transporter, and of
    a Gmail one only if [SMTP_USER] is not set. *)
Theorem sendEmail_sends_once
    (env : Env) (sendMail : Transporter -> Mail -> result unit)
    (transporter : option Transporter) (to subject text : string) :
  match fst (createTransporter env transporter) with
  | Err e =>
      sendEmail env sendMail transporter to subject text
      = (Err e, snd (createTransporter env transporter), [])
  | Ok t =>
      let mail := mkMail (or_else (SMTP_USER env) (EMAIL_USER env)) to subject text in
      sendEmail env sendMail transporter to subject text
      = (sendMail t mail, Some t, [(t, mail)])
      /\ (transporter = None ->
          match t with
          | Smtp _ _ _ user _ => from mail = Some user
          | Gmail user _ =>
              match present (SMTP_USER env) with
              | None => from mail = Some user
              | Some other => from mail = Some other
              end
          end)
  end.
Proof.
  unfold sendEmail.
  destruct (createTransporter env transporter) as [[t | e] st] eqn:Hcreate;
    cbn [fst snd]; [| reflexivity].
  pose proof (createTransporter_keeps env transporter) as Hkept.
  rewrite Hcreate in Hkept. cbn [fst snd] in Hkept.
  rewrite (Hkept t eq_refl).
  split; [reflexivity |].
  intros ->. revert Hcreate. unfold createTransporter, present, or_else. cbn [from].
  destruct (SMTP_HOST env) as [h |]; [destruct (truthy_string h) |];
    destruct (SMTP_PORT env) as [p |]; try destruct (truthy_string p);
    destruct (SMTP_USER env) as [u |]; try destruct (truthy_string u);
    destruct (SMTP_PASS env) as [pw |]; try destruct (truthy_string pw);
    destruct (EMAIL_USER env) as [gu |]; try destruct (truthy_string gu);
    destruct (EMAIL_PASS env) as [gp |]; try destruct (truthy_string gp);
    intro H; try discriminate; injection H as <-; reflexivity.
Qed.

End Mailer.

Lemma createTransporter_is_memoised_witness :
  SendEmail.createTransporter (lib := Demo.lib) Examples.no_mail_env
    (snd (SendEmail.createTransporter (lib := Demo.lib) Examples.smtp_env None))
  = (Ok (SendEmail.Smtp "smtp.example.org" (of_int 587) false "mailer" "secret"),
     Some (SendEmail.Smtp "smtp.example.org" (of_int 587) false "mailer" "secret")).
Proof.
  apply (createTransporter_is_memoised (lib := Demo.lib) Examples.smtp_env
           Examples.no_mail_env None
           (t := SendEmail.Smtp "smtp.example.org" (of_int 587) false "mailer" "secret")).
  reflexivity.
Defined.

(** With an incomplete SMTP configuration the mail goes through Gmail
    but names the SMTP user as its sender. *)
Lemma sender_can_differ_from_authenticated_user :
  SendEmail.sendEmail (lib := Demo.lib) Examples.gmail_env (fun _ _ => Ok tt) None
    "to@example.org" "subject" "text"
  = (Ok tt, Some (SendEmail.Gmail "someone@gmail.com" "pw"),
     [(SendEmail.Gmail "someone@gmail.com" "pw",
       SendEmail.mkMail (Some "mailer") "to@example.org" "subject" "text")]).
Proof. reflexivity. Qed.
